(** * Tiidee-Git: narrated-video pipeline, language detection and fallbacks

    A shallow embedding of the generation services of the repository
    (dzongkha_service.py, video.py, offline_ai_service.py, offline_video.py,
    voice_cloning.py, image_generation.py, advanced_video_generation.py) and
    the properties of their specification that can be settled on it. *)

From Stdlib Require Import ZArith QArith Lqa List Bool Lia String Ascii.
From stdpp Require Import base gmap strings list list_numbers pretty.

Local Open Scope Z_scope.

(** ** Python text

    A Python [str] is a sequence of Unicode code points.  The scripts and
    narration texts handled by the services are kept as lists of code points,
    so that [ord] is the identity and the Tibetan block can be told apart
    from ASCII.  Identifiers the services build themselves (paths, labels,
    dictionary keys) are plain [string]s. *)

Module PyStr.

Abbreviation char := Z (only parsing).
Abbreviation pystr := (list Z) (only parsing).

Definition ord (c : char) : Z := c.

(** A literal written in the source, as code points. *)
Definition lit (s : string) : pystr :=
  List.map (fun a => Z.of_N (N_of_ascii a)) (list_ascii_of_string s).

(** Truth value of a string in a condition: [if s:] holds for non-empty [s]. *)
Definition truthy (s : pystr) : bool :=
  match s with [] => false | _ :: _ => true end.

(** [len(s)]. *)
Definition len (s : pystr) : Z := Z.of_nat (List.length s).

(** [str.isspace] on one code point: the ASCII table of CPython
    (TAB..CR, FS..US, SPACE) and the code points with the White_Space
    property above it. *)
Definition isspace (c : char) : bool :=
  ((0x09 <=? c) && (c <=? 0x0D))
  || ((0x1C <=? c) && (c <=? 0x20))
  || (c =? 0x85) || (c =? 0xA0) || (c =? 0x1680)
  || ((0x2000 <=? c) && (c <=? 0x200A))
  || (c =? 0x2028) || (c =? 0x2029) || (c =? 0x202F)
  || (c =? 0x205F) || (c =? 0x3000).

(** [s.lstrip()], [s.rstrip()] and [s.strip()] without arguments. *)
Fixpoint lstrip (s : pystr) : pystr :=
  match s with
  | [] => []
  | c :: rest => if isspace c then lstrip rest else s
  end.

Definition rstrip (s : pystr) : pystr := List.rev (lstrip (List.rev s)).

Definition strip (s : pystr) : pystr := rstrip (lstrip s).

(** [s.split()] without arguments: the maximal runs of non-whitespace.
    [cur] is the run being read, in reverse. *)
Fixpoint split_whitespace (s : pystr) (cur : pystr) : list pystr :=
  match s with
  | [] => match cur with [] => [] | _ => [List.rev cur] end
  | c :: rest =>
      if isspace c
      then match cur with
           | [] => split_whitespace rest []
           | _ => List.rev cur :: split_whitespace rest []
           end
      else split_whitespace rest (c :: cur)
  end.

(** [s.split('. ')]: cut at every occurrence of the two-character separator,
    scanning from the left; empty pieces are kept. *)
Fixpoint split_dot_space (s : pystr) (cur : pystr) : list pystr :=
  match s with
  | [] => [List.rev cur]
  | c :: rest =>
      match rest with
      | d :: rest' =>
          if (c =? 0x2E) && (d =? 0x20)
          then List.rev cur :: split_dot_space rest' []
          else split_dot_space rest (c :: cur)
      | [] => [List.rev (c :: cur)]
      end
  end.

(** The character class [[.!?]] of the sentence splitter. *)
Definition is_terminator (c : char) : bool :=
  (c =? 0x2E) || (c =? 0x21) || (c =? 0x3F).

(** [re.split(r'[.!?]+', s)]: cut at every maximal run of terminators; the
    piece before a leading run and after a trailing run is the empty string.
    [in_run] tells that the previous character belonged to a run. *)
Fixpoint re_split_terminators (s : pystr) (cur : pystr) (in_run : bool)
  : list pystr :=
  match s with
  | [] => [List.rev cur]
  | c :: rest =>
      if is_terminator c
      then if in_run
           then re_split_terminators rest cur true
           else List.rev cur :: re_split_terminators rest [] true
      else re_split_terminators rest (c :: cur) false
  end.

(** [s.startswith(prefix)]. *)
Fixpoint startswith (s prefix : pystr) : bool :=
  match prefix, s with
  | [], _ => true
  | p :: prefix', c :: s' => (c =? p) && startswith s' prefix'
  | _ :: _, [] => false
  end.

End PyStr.

Import PyStr.

(** ** The world around the services

    Files, child processes and remote providers.  What a provider or a child
    process answers is not decided by the program: it is read from an
    environment [Env], which may answer differently as the history grows. *)

Module Runtime.

Inductive color := Hex (rgb : Z) | Named (name : string).

(** A mono 16-bit WAV file as written through the [wave] module. *)
Record wave := Wave { framerate : Z; frames : list Z }.

(** What a file holds. *)
#[warnings="-register-all"]
Inductive content :=
  | Bytes (data : list Z)             (* written by Python from a response *)
  | Pcm (w : wave)                    (* written through [wave] *)
  | ConcatList (entries : list string)(* one [file '<path>'] line per entry *)
  | Still (c : color)                 (* one 1280x720 frame of a colour *)
  | Silence (tenths : Z)              (* [anullsrc], [tenths / 10] seconds *)
  | Spoken (voice : string) (text : pystr)   (* output of a speech engine *)
  | FestivalScript (text : pystr) (output : string)
                                      (* say [text] and save it to [output] *)
  | Drawing (background : content) (description : pystr)
                                      (* the description drawn over a
                                         background with PIL *)
  | Clip (image audio : content)      (* a still image under its audio *)
  | Joined (clips : list content).    (* clips in order, stream copy *)

(** The command lines the services hand to [subprocess.run]. *)
Inductive cmd :=
  | FfmpegStill (c : color) (output : string)
      (* ffmpeg -f lavfi -i color=<c>:size=1280x720:duration=1
                -frames:v 1 -y <output> *)
  | FfmpegSilence (tenths : Z) (output : string)
      (* ffmpeg -f lavfi -i anullsrc=duration=<tenths * 0.1> -y <output> *)
  | FfmpegSegment (image audio output : string)
      (* ffmpeg -y -loop 1 -i <image> -i <audio> -c:v libx264 -c:a aac
                -shortest -pix_fmt yuv420p -vf scale=1280:720 <output> *)
  | FfmpegConcat (list_file output : string)
      (* ffmpeg -y -f concat -safe 0 -i <list_file> -c copy <output> *)
  | Cp (source target : string)
      (* cp <source> <target> *)
  | Espeak (voice : string) (text : pystr) (output : string)
      (* espeak -v <voice> -s 150 -p 50 -w <output> <text> *)
  | Festival (script_path : string).
      (* festival -b <script_path> *)

Inductive stage := Segmentation | AudioGeneration | ImageGeneration | Assembly.

(** What has happened so far, newest first. *)
Inductive event :=
  | Spawn (c : cmd)
  | ImagesGenerate (prompt : pystr)
  | HttpGet (url : string)
  | ElevenLabsGenerate (text voice_id : pystr)
  | SpeechCreate (voice : string) (text : pystr)
  | ChatCompletion (script : pystr)
  | Enter (s : stage).

(** The events that are calls to the voice-cloning provider. *)
Definition to_elevenlabs (ev : event) : bool :=
  match ev with ElevenLabsGenerate _ _ => true | _ => false end.

Record World := MkWorld {
  files : gmap string content;
  trace : list event
}.

(** How a child process ends: it exits with a return code, or it could not
    be started at all ([subprocess.run] raises [FileNotFoundError]). *)
Inductive spawned := Exited (returncode : Z) | NotStarted.

(** A scene descriptor of the advanced generator. *)
Record scene := Scene { text : pystr; visual_description : pystr }.

(** The answers of the environment.  A remote call answers [None] when it
    raises, whatever the reason.  [chat_completion] is the answer to the
    scene-splitting prompt after [json.loads]: [None] when the call or the
    parsing raised or the result is not an object, [Some None] for an object
    without a ['scenes'] entry, [Some (Some l)] for an object that has one.
    [requests_get] answers a status code and a body.  [py_hash] is the
    built-in [hash] of the running process, [py_isalpha] and [py_lower] are
    [str.isalpha] and [str.lower] on one character (the Unicode tables of
    the interpreter), and [fsencode] is the file name of a text. *)
Record Env := MkEnv {
  spawn : cmd -> World -> spawned;
  can_write : string -> World -> bool;
  images_generate : pystr -> World -> option string;
  requests_get : string -> World -> option (Z * list Z);
  elevenlabs_generate : pystr -> pystr -> World -> option (list Z);
  speech_create : string -> pystr -> World -> option (list Z);
  chat_completion : pystr -> World -> option (option (list scene));
  py_hash : pystr -> Z;
  py_isalpha : Z -> bool;
  py_lower : Z -> pystr;
  fsencode : pystr -> string;
  uuid4 : World -> string
}.

(** The contract of the external muxer and of [cp] (section 6 of the
    specification).  [effect c fs] is the file system after [c] has run to
    a zero exit status on [fs]; it is [None] when [c] cannot succeed on
    [fs] because an input is missing. *)
Definition effect (c : cmd) (fs : gmap string content)
  : option (gmap string content) :=
  match c with
  | FfmpegStill col out => Some (<[out := Still col]> fs)
  | FfmpegSilence d out => Some (<[out := Silence d]> fs)
  | FfmpegSegment image audio out =>
      match fs !! image, fs !! audio with
      | Some i, Some a => Some (<[out := Clip i a]> fs)
      | _, _ => None
      end
  | FfmpegConcat list_file out =>
      match fs !! list_file with
      | Some (ConcatList (e :: entries)) =>
          match mapM (fun p => fs !! p) (e :: entries) with
          | Some clips => Some (<[out := Joined clips]> fs)
          | None => None
          end
      | _ => None
      end
  | Cp source target =>
      match fs !! source with
      | Some c => Some (<[target := c]> fs)
      | None => None
      end
  | Espeak voice text out => Some (<[out := Spoken voice text]> fs)
  | Festival script_path =>
      match fs !! script_path with
      | Some (FestivalScript text out) =>
          Some (<[out := Spoken "kal_diphone" text]> fs)
      | _ => None
      end
  end.

(** *** Exceptions and the monad of the services *)

Inductive exn :=
  | Exception (msg : string)
  | Wrapped (prefix : string) (cause : exn)  (* Exception(f"<prefix>{e}") *)
  | CalledProcessError (c : cmd) (returncode : Z)
  | FileNotFoundError (c : cmd)
  | OSError (path : string)
  | TypeError (msg : string)
  | ProviderError.

Inductive result (A : Type) :=
  | Return (a : A)
  | Raise (e : exn).
Arguments Return {A} a.
Arguments Raise {A} e.

Definition M (A : Type) : Type := World -> result A * World.

Definition ret {A} (a : A) : M A := fun w => (Return a, w).

Definition raise {A} (e : exn) : M A := fun w => (Raise e, w).

Definition bind {A B} (m : M A) (k : A -> M B) : M B :=
  fun w =>
    match m w with
    | (Return a, w') => k a w'
    | (Raise e, w') => (Raise e, w')
    end.

(** [try: m  except Exception as e: handler e]; the effects of [m] up to the
    exception stay. *)
Definition try_except {A} (m : M A) (handler : exn -> M A) : M A :=
  fun w =>
    match m w with
    | (Return a, w') => (Return a, w')
    | (Raise e, w') => handler e w'
    end.

Declare Scope py_scope.
Delimit Scope py_scope with py.
Notation "x <- m ;; k" := (bind m (fun x => k))
  (at level 100, m at next level, k at level 200, right associativity)
  : py_scope.
Notation "m ;; k" := (bind m (fun _ => k))
  (at level 100, k at level 200, right associativity) : py_scope.

Local Open Scope py_scope.

Definition log (ev : event) : M unit :=
  fun w => (Return tt, MkWorld (files w) (ev :: trace w)).

(** [os.path.exists]. *)
Definition os_path_exists (path : string) : M bool :=
  fun w => (Return (bool_decide (is_Some (files w !! path))), w).

(** [name.startswith('/')] and [dir.endswith('/')]. *)
Definition startswith_sep (name : string) : bool :=
  match name with
  | String c _ => Ascii.eqb c "/"
  | EmptyString => false
  end.

Fixpoint endswith_sep (dir : string) : bool :=
  match dir with
  | EmptyString => false
  | String c EmptyString => Ascii.eqb c "/"
  | String _ dir' => endswith_sep dir'
  end.

(** [os.path.join] of two components: an absolute [name] stands alone, and
    the separator is added unless [dir] is empty or ends with it. *)
Definition path_join (dir name : string) : string :=
  if startswith_sep name
  then name
  else if match dir with
          | EmptyString => true
          | String _ _ => false
          end
          || endswith_sep dir
  then dir +:+ name
  else dir +:+ "/" +:+ name.

(** [s.replace(old, new)] for a non-empty [old]: every occurrence, from the
    left, without overlap.  [skip] counts the characters of an occurrence
    still to be passed over. *)
Fixpoint replace_from (old new : string) (skip : nat) (s : string) : string :=
  match s with
  | EmptyString => EmptyString
  | String c s' =>
      match skip with
      | S skip' => replace_from old new skip' s'
      | O =>
          if String.prefix old s
          then new +:+ replace_from old new (String.length old - 1) s'
          else String c (replace_from old new 0 s')
      end
  end.

Definition replace (old new s : string) : string := replace_from old new 0 s.

Section WithEnv.

Variable E : Env.

(** [with open(path, 'w') as f: f.write(...)], [open(path, 'wb')] and
    [wave.open(path, 'wb')]: the file is replaced, or [open] raises. *)
Definition write_file (path : string) (c : content) : M unit :=
  fun w =>
    if can_write E path w
    then (Return tt, MkWorld (<[path := c]> (files w)) (trace w))
    else (Raise (OSError path), w).

(** [os.remove]. *)
Definition os_remove (path : string) : M unit :=
  fun w =>
    match files w !! path with
    | Some _ => (Return tt, MkWorld (delete path (files w)) (trace w))
    | None => (Raise (OSError path), w)
    end.

(** [subprocess.run(cmd, check=check, capture_output=True).returncode].
    The run is recorded; a process that cannot be started raises whatever
    [check] is; a non-zero exit raises under [check] and leaves the files
    as they were.  A process cannot exit with 0 when an input is missing:
    it is then taken to exit with 1. *)
Definition subprocess_run (check : bool) (c : cmd) : M Z :=
  fun w =>
    let w1 := MkWorld (files w) (Spawn c :: trace w) in
    match spawn E c w with
    | NotStarted => (Raise (FileNotFoundError c), w1)
    | Exited returncode =>
        match (if returncode =? 0 then effect c (files w) else None) with
        | Some fs => (Return 0, MkWorld fs (trace w1))
        | None =>
            let returncode := if returncode =? 0 then 1 else returncode in
            if check
            then (Raise (CalledProcessError c returncode), w1)
            else (Return returncode, w1)
        end
    end.

(** The remote calls: each is recorded, and returns or raises as the
    environment says. *)
Definition remote {A} (ev : event) (answer : World -> option A) : M A :=
  fun w =>
    let w1 := MkWorld (files w) (ev :: trace w) in
    match answer w with
    | Some a => (Return a, w1)
    | None => (Raise ProviderError, w1)
    end.

End WithEnv.

End Runtime.

Import Runtime.
Local Open Scope py_scope.

(** ** dzongkha_service.py: language detection and validation *)

Module Dzongkha.

(** The dictionary returned by [detect_language].  The confidence is a
    Python float obtained by one division of two integers; it is kept here
    as the exact quotient. *)
Record detection := Detection { language : string; confidence : Q }.

Definition dzongkha_ranges : list (Z * Z) := [(0x0F00, 0x0FFF)].

(** The inner loop over the ranges, left at the first range that holds the
    code point. *)
Fixpoint count_in_ranges (ranges : list (Z * Z)) (char_code : Z)
    (dzongkha_chars : Z) : Z :=
  match ranges with
  | [] => dzongkha_chars
  | (start, stop) :: ranges' =>
      if (start <=? char_code) && (char_code <=? stop)
      then dzongkha_chars + 1
      else count_in_ranges ranges' char_code dzongkha_chars
  end.

(** The loop over the characters, with its two counters. *)
Fixpoint count_chars (text : pystr) (dzongkha_chars total_chars : Z) : Z * Z :=
  match text with
  | [] => (dzongkha_chars, total_chars)
  | char :: text' =>
      if truthy (strip [char])
      then count_chars text'
             (count_in_ranges dzongkha_ranges (ord char) dzongkha_chars)
             (total_chars + 1)
      else count_chars text' dzongkha_chars total_chars
  end.

Definition detect_language (text : pystr) : detection :=
  let '(dzongkha_chars, total_chars) := count_chars text 0 0 in
  if total_chars =? 0
  then Detection "unknown" 0
  else
    let confidence := (inject_Z dzongkha_chars / inject_Z total_chars)%Q in
    if Qlt_le_dec (1 # 2) confidence
    then Detection "dz" confidence
    else Detection "other" (1 - confidence)%Q.

Record validation := Validation {
  is_valid : bool;
  v_confidence : Q;
  character_count : Z;
  word_estimate : Z
}.

Definition validate_dzongkha_text (text : pystr) : validation :=
  let detection := detect_language text in
  Validation
    (String.eqb (language detection) "dz")
    (confidence detection)
    (len text)
    (if truthy text
     then Z.of_nat (List.length (split_whitespace text []))
     else 0).

(** *** The synthetic tone generator *)

Inductive tone_type := high | mid | low.

Definition sample_rate : Z := 22050.
Definition base_freq : Z := 180.

(** [int(sample_rate * char_duration)] with [char_duration = 0.15], and
    [int(sample_rate * 0.1)]: the two products are 3307.5 and 2205.0 in
    double precision, truncated by [int]. *)
Definition samples_per_tone : Z := 3307.
Definition samples_per_silence : Z := 2205.

(** The tonal variation: frequency and tone type chosen from the code point,
    the three tests in the order of the source. *)
Definition tone_of (char_code : Z) : Z * tone_type :=
  if (0x0F00 <=? char_code) && (char_code <=? 0x0FFF)
  then (base_freq + char_code mod 100 + 50, high)
  else if (0x0F40 <=? char_code) && (char_code <=? 0x0F6C)
  then (base_freq + char_code mod 50 + 25, mid)
  else (base_freq + char_code mod 30, low).

Section Synthetic.

(** [int(32767 * value)] for sample [j] of a tone: three harmonics of the
    frequency under a decaying envelope that depends on the tone type.  The
    value is computed in floating point by numpy and is left abstract. *)
Variable amplitude : Z -> tone_type -> Z -> Z.

(** The frames appended for one character. *)
Definition char_frames (char : Z) : list Z :=
  if truthy (strip [char])
  then
    let '(freq, tone) := tone_of (ord char) in
    List.map (amplitude freq tone) (seqZ 0 samples_per_tone)
  else List.map (fun _ => 0) (seqZ 0 samples_per_silence).

Definition synthetic_frames (text : pystr) : list Z :=
  List.flat_map char_frames text.

Variable E : Env.

Definition generate_synthetic_dzongkha_speech (text : pystr)
    (output_path : string) : M string :=
  write_file E output_path (Pcm (Wave sample_rate (synthetic_frames text)));;
  ret output_path.

End Synthetic.

End Dzongkha.

(** [enumerate(l)]. *)
Definition enumerate {A} (l : list A) : list (nat * A) :=
  List.combine (List.seq 0 (List.length l)) l.

(** Truth value of a list in a condition. *)
Definition nonempty {A} (l : list A) : bool :=
  match l with [] => false | _ :: _ => true end.

(** ** voice_cloning.py *)

Module VoiceCloning.

Section Service.

Variable E : Env.

(** [self.client]: set when [ELEVENLABS_API_KEY] is, [None] otherwise. *)
Variable client : bool.

Definition _generate_with_fallback (text voice_id : pystr)
    (output_path : string) : M string :=
  try_except
    (audio <- remote (SpeechCreate "alloy" text)
                (speech_create E "alloy" text);;
     write_file E output_path (Bytes audio);;
     ret output_path)
    (fun _ =>
       subprocess_run E true (FfmpegSilence (len text) output_path);;
       ret output_path).

Definition _generate_with_elevenlabs (text voice_id : pystr)
    (output_path : string) : M string :=
  try_except
    (audio <- remote (ElevenLabsGenerate text voice_id)
                (elevenlabs_generate E text voice_id);;
     write_file E output_path (Bytes audio);;
     ret output_path)
    (fun _ => _generate_with_fallback text voice_id output_path).

Definition generate_speech (text voice_id : pystr) (output_path : string)
  : M string :=
  if client && negb (startswith voice_id (lit "fallback_"))
  then _generate_with_elevenlabs text voice_id output_path
  else _generate_with_fallback text voice_id output_path.

End Service.

End VoiceCloning.

(** ** voice_cloning.py: the voices on offer *)

Module VoiceCatalogue.

(** An entry of the list: the id, the name shown, and the service the
    code names as the one the voice belongs to. *)
Record voice := Voice {
  voice_id : pystr;
  name : pystr;
  service : string
}.

Definition fallback_voices : list voice :=
  [Voice (lit "openai_alloy") (lit "Alloy (OpenAI)") "openai";
   Voice (lit "openai_echo") (lit "Echo (OpenAI)") "openai";
   Voice (lit "openai_fable") (lit "Fable (OpenAI)") "openai";
   Voice (lit "openai_onyx") (lit "Onyx (OpenAI)") "openai";
   Voice (lit "openai_nova") (lit "Nova (OpenAI)") "openai";
   Voice (lit "openai_shimmer") (lit "Shimmer (OpenAI)") "openai"].

Section Service.

Variable client : bool.

(** The voices of [self.client.voices.get_all()], id and name, that were
    appended before the call or the loop raised: none when the call
    raises. *)
Variable voices_get_all : World -> list (pystr * pystr).

Definition list_available_voices (w : World) : list voice :=
  let voices :=
    if client
    then List.map (fun '(voice_id, name) => Voice voice_id name "elevenlabs")
           (voices_get_all w)
    else [] in
  voices ++ fallback_voices.

End Service.

End VoiceCatalogue.

(** ** image_generation.py *)

Module ImageGeneration.

Definition style_modifiers : gmap string string :=
  list_to_map
    [("realistic", "photorealistic, high quality, detailed");
     ("artistic", "artistic, creative, stylized");
     ("cartoon", "cartoon style, animated, colorful");
     ("minimalist", "minimalist, clean, simple design");
     ("cinematic", "cinematic lighting, dramatic, movie-like")].

Definition _enhance_prompt (text_prompt : pystr) (style : string) : pystr :=
  let modifier := default "high quality, detailed" (style_modifiers !! style) in
  let enhanced_prompt :=
    text_prompt ++ lit ", " ++ lit modifier ++ lit ", 16:9 aspect ratio" in
  if len enhanced_prompt >? 1000
  then List.firstn 1000 enhanced_prompt
  else enhanced_prompt.

Section Service.

Variable E : Env.

Definition _generate_fallback_image (text_prompt : pystr)
    (output_path : string) : M string :=
  try_except
    (let color_hash := py_hash E text_prompt mod 16777215 in
     subprocess_run E true (FfmpegStill (Hex color_hash) output_path);;
     ret output_path)
    (fun _ =>
       subprocess_run E true (FfmpegStill (Named "black") output_path);;
       ret output_path).

(** The [try] block of [generate_image_from_text]: the remote generator
    and the download of its result. *)
Definition generate_with_dalle (text_prompt : pystr)
    (output_path : string) (style : string) : M string :=
  let enhanced_prompt := _enhance_prompt text_prompt style in
  image_url <- remote (ImagesGenerate enhanced_prompt)
                 (images_generate E enhanced_prompt);;
  image_response <- remote (HttpGet image_url) (requests_get E image_url);;
  let '(status_code, content) := image_response in
  if status_code =? 200
  then write_file E output_path (Bytes content);; ret output_path
  else raise (Exception ("Failed to download image: "
                         +:+ pretty status_code)).

Definition generate_image_from_text (text_prompt : pystr)
    (output_path : string) (style : string) : M string :=
  try_except
    (generate_with_dalle text_prompt output_path style)
    (fun _ => _generate_fallback_image text_prompt output_path).

End Service.

End ImageGeneration.

(** ** advanced_video_generation.py *)

Module AdvancedVideoGeneration.

Section Service.

Variable E : Env.

Definition _parse_script_into_scenes (script : pystr) : M (list scene) :=
  try_except
    (scenes_data <- remote (ChatCompletion script) (chat_completion E script);;
     ret (default [Scene script script] scenes_data))
    (fun _ =>
       let sentences := split_dot_space script [] in
       ret (List.map
              (fun s => Scene (strip s ++ lit ".") (strip s))
              (List.filter (fun s => truthy (strip s)) sentences))).

End Service.

End AdvancedVideoGeneration.

(** ** video.py *)

Module Video.

Definition OUTPUT_FOLDER : string := "/tmp/outputs".

(** The body of the loop over the sentences: [segments] and
    [current_segment] before and after one sentence. *)
Definition add_sentence (state : list pystr * pystr) (sentence : pystr)
  : list pystr * pystr :=
  let '(segments, current_segment) := state in
  let sentence := strip sentence in
  if negb (truthy sentence)
  then (segments, current_segment)
  else if (len current_segment + len sentence >? 200)
          && truthy current_segment
  then (segments ++ [strip current_segment], sentence)
  else if truthy current_segment
  then (segments, current_segment ++ lit ". " ++ sentence)
  else (segments, sentence).

Definition split_script_into_segments (script : pystr) : list pystr :=
  let sentences := re_split_terminators script [] false in
  let '(segments, current_segment) :=
    List.fold_left add_sentence sentences ([], []) in
  let segments :=
    if truthy (strip current_segment)
    then segments ++ [strip current_segment]
    else segments in
  if negb (nonempty segments) then [script] else segments.

(** The JSON answer of a route with its status code. *)
Inductive response :=
  | Completed (job_id video_url message : string)
  | Rejected (error : string) (status : Z)
  | Failed (error : exn) (status : Z).

Section Routes.

Variable E : Env.

(** [voice_service] and [image_service], constructed when the module is
    loaded; [client] is the ElevenLabs client of the voice service. *)
Variable client : bool.

Definition segment_path (job_id : string) (i : nat) : string :=
  path_join OUTPUT_FOLDER (job_id +:+ "_segment_" +:+ pretty i +:+ ".mp4").

(** The loop that builds one clip per audio-image pair. *)
Fixpoint build_segments (job_id : string)
    (pairs : list (nat * (string * string))) (segment_videos : list string)
  : M (list string) :=
  match pairs with
  | [] => ret segment_videos
  | (i, (audio_file, image_file)) :: pairs' =>
      has_audio <- os_path_exists audio_file;;
      has_image <- os_path_exists image_file;;
      if has_audio && has_image
      then
        let segment_video := segment_path job_id i in
        returncode <- subprocess_run E false
                        (FfmpegSegment image_file audio_file segment_video);;
        if negb (returncode =? 0)
        then build_segments job_id pairs' segment_videos
        else build_segments job_id pairs' (segment_videos ++ [segment_video])
      else build_segments job_id pairs' segment_videos
  end.

(** The clean-up loop; a failing [os.remove] is ignored. *)
Fixpoint remove_segments (segment_videos : list string) : M unit :=
  match segment_videos with
  | [] => ret tt
  | segment :: rest =>
      try_except (os_remove segment) (fun _ => ret tt);;
      remove_segments rest
  end.

Definition combine_media_to_video (audio_files image_files : list string)
    (job_id : string) : M string :=
  let video_path := path_join OUTPUT_FOLDER (job_id +:+ ".mp4") in
  try_except
    (if negb (nonempty audio_files) || negb (nonempty image_files)
     then raise (Exception "No audio or image files to combine")
     else
       segment_videos <-
         build_segments job_id
           (enumerate (List.combine audio_files image_files)) [];;
       match segment_videos with
       | [] => raise (Exception "No video segments were created successfully")
       | first :: others =>
           (if Nat.eqb (List.length segment_videos) 1
            then subprocess_run E true (Cp first video_path);; ret tt
            else
              let concat_file :=
                path_join OUTPUT_FOLDER (job_id +:+ "_concat.txt") in
              write_file E concat_file (ConcatList segment_videos);;
              returncode <- subprocess_run E false
                              (FfmpegConcat concat_file video_path);;
              if negb (returncode =? 0)
              then subprocess_run E true (Cp first video_path);; ret tt
              else ret tt);;
           remove_segments segment_videos;;
           ret video_path
       end)
    (fun _ =>
       match audio_files, image_files with
       | audio0 :: _, image0 :: _ =>
           subprocess_run E false (FfmpegSegment image0 audio0 video_path);;
           ret video_path
       | _, _ => ret video_path
       end).

(** The two loops over the segments of [process_video_generation]. *)
Fixpoint generate_audio_files (voice_id : pystr) (job_id : string)
    (segments : list (nat * pystr)) (audio_files : list string)
  : M (list string) :=
  match segments with
  | [] => ret audio_files
  | (i, segment) :: segments' =>
      if truthy (strip segment)
      then
        let audio_file :=
          path_join OUTPUT_FOLDER
            (job_id +:+ "_audio_" +:+ pretty i +:+ ".wav") in
        VoiceCloning.generate_speech E client segment voice_id audio_file;;
        generate_audio_files voice_id job_id segments'
          (audio_files ++ [audio_file])
      else generate_audio_files voice_id job_id segments' audio_files
  end.

Fixpoint generate_image_files (job_id : string)
    (segments : list (nat * pystr)) (image_files : list string)
  : M (list string) :=
  match segments with
  | [] => ret image_files
  | (i, segment) :: segments' =>
      if truthy (strip segment)
      then
        let image_file :=
          path_join OUTPUT_FOLDER
            (job_id +:+ "_image_" +:+ pretty i +:+ ".png") in
        ImageGeneration.generate_image_from_text E segment image_file
          "realistic";;
        generate_image_files job_id segments' (image_files ++ [image_file])
      else generate_image_files job_id segments' image_files
  end.

(** Each stage is announced in the trace when it is entered, where the
    source prints its progress. *)
Definition process_video_generation (script voice_id : pystr)
    (job_id : string) : M string :=
  try_except
    (log (Enter Segmentation);;
     let segments := split_script_into_segments script in
     log (Enter AudioGeneration);;
     audio_files <-
       generate_audio_files voice_id job_id (enumerate segments) [];;
     log (Enter ImageGeneration);;
     image_files <- generate_image_files job_id (enumerate segments) [];;
     log (Enter Assembly);;
     video_path <- combine_media_to_video audio_files image_files job_id;;
     ret video_path)
    (fun e => raise (Wrapped "Video generation failed: " e)).

(** [request.json] is [None] when the body is not a JSON object; the
    fields of interest are strings. *)
Definition generate_video (request_json : option (gmap string pystr))
  : M response :=
  try_except
    (data <- match request_json with
             | Some data => ret data
             | None => raise (Exception "request.json is not an object")
             end;;
     let script := default [] (data !! "script") in
     let voice_id := default (lit "default") (data !! "voice_id") in
     if negb (truthy script)
     then ret (Rejected "Script is required" 400)
     else
       job_id <- (fun w => (Return (uuid4 E w), w));;
       video_path <- process_video_generation script voice_id job_id;;
       ret (Completed job_id ("/api/download-video/" +:+ job_id)
              "Video generated successfully"))
    (fun e => ret (Failed e 500)).

End Routes.

End Video.

(** ** offline_ai_service.py *)

Module OfflineAIService.

Definition temp_dir : string := "/tmp/offline_ai".
Definition models_dir : string := "/tmp/ai_models".

(** [self.tts_engine], chosen when the service is constructed. *)
Inductive engine := espeak | festival | synthetic.

Definition voice_map : gmap (list Z) string :=
  list_to_map
    [(lit "default", "en"); (lit "male", "en+m3");
     (lit "female", "en+f3"); (lit "child", "en+f4")].

Definition colors : gmap (list Z) string :=
  list_to_map
    [(lit "business", "#2563eb"); (lit "nature", "#16a34a");
     (lit "technology", "#7c3aed"); (lit "education", "#dc2626");
     (lit "creative", "#ea580c")].

Definition split_script (script : pystr) : list pystr :=
  let sentences := re_split_terminators script [] false in
  List.map strip (List.filter (fun s => truthy (strip s)) sentences).

Section Service.

Variable E : Env.
Variable tts_engine : engine.

(** [int(32767 * 0.3 * math.sin(2 * math.pi * freq * j / sample_rate))],
    a floating-point computation, for a frequency and a sample index. *)
Variable beep : Z -> Z -> Z.

Definition generate_espeak_speech (text : pystr) (output_path : string)
    (voice_id : pystr) : M unit :=
  let voice := default "en" (voice_map !! voice_id) in
  subprocess_run E true (Espeak voice text output_path);;
  ret tt.

Definition generate_festival_speech (text : pystr) (output_path : string)
  : M unit :=
  let script_path := replace ".wav" ".scm" output_path in
  write_file E script_path (FestivalScript text output_path);;
  subprocess_run E true (Festival script_path);;
  ret tt.

(** The loop over the characters of [generate_synthetic_speech]: 2205
    samples of a tone for a letter, 1102 samples of silence for anything
    else.  [ord] raises when the lower-case form is not one character. *)
Fixpoint beep_frames (text : pystr) (frames : list Z) : M (list Z) :=
  match text with
  | [] => ret frames
  | char :: text' =>
      if py_isalpha E char
      then
        match py_lower E char with
        | [lowered] =>
            let freq := 200 + (ord lowered - ord 0x61) * 20 in
            beep_frames text' (frames ++ List.map (beep freq) (seqZ 0 2205))
        | _ => raise (TypeError "ord() expected a character")
        end
      else beep_frames text' (frames ++ List.map (fun _ => 0) (seqZ 0 1102))
  end.

Definition generate_synthetic_speech (text : pystr) (output_path : string)
  : M string :=
  frames <- beep_frames text [];;
  write_file E output_path (Pcm (Wave 22050 frames));;
  ret output_path.

Definition generate_speech_offline (text voice_id : pystr) : M string :=
  let output_path :=
    path_join temp_dir ("speech_" +:+ pretty (py_hash E text) +:+ ".wav") in
  try_except
    (match tts_engine with
     | espeak => generate_espeak_speech text output_path voice_id
     | festival => generate_festival_speech text output_path
     | synthetic => generate_synthetic_speech text output_path;; ret tt
     end;;
     ret output_path)
    (fun _ => generate_synthetic_speech text output_path).

(** The picture is the template of the style when that file exists, a plain
    background of the colour of the style otherwise, with the description
    written over it and the elements of the first keyword it contains. *)
Definition generate_image_offline (description style : pystr) : M string :=
  let output_path :=
    path_join temp_dir
      ("image_" +:+ pretty (py_hash E description) +:+ ".png") in
  let template_path :=
    path_join (path_join models_dir "image_templates")
      (fsencode E style +:+ ".png") in
  img <- (fun w =>
            match files w !! template_path with
            | Some template => (Return template, w)
            | None =>
                let color := default "#6b7280" (colors !! style) in
                (Return (Still (Named color)), w)
            end);;
  write_file E output_path (Drawing img description);;
  ret output_path.

Definition create_video_segment (image_path audio_path : string)
    (index : nat) : M string :=
  let output_path :=
    path_join temp_dir ("segment_" +:+ pretty index +:+ ".mp4") in
  subprocess_run E false (FfmpegSegment image_path audio_path output_path);;
  ret output_path.

(** The entries written to the concat file: the segments that exist. *)
Fixpoint existing (segments : list string) : M (list string) :=
  match segments with
  | [] => ret []
  | segment :: rest =>
      found <- os_path_exists segment;;
      entries <- existing rest;;
      ret (if found then segment :: entries else entries)
  end.

Definition combine_video_segments (segments : list string)
  : M (option string) :=
  if negb (nonempty segments)
  then ret None
  else
    let final_path := path_join temp_dir "final_video.mp4" in
    match segments with
    | [only] =>
        subprocess_run E false (Cp only final_path);;
        ret (Some final_path)
    | _ =>
        let concat_file := path_join temp_dir "concat.txt" in
        entries <- existing segments;;
        write_file E concat_file (ConcatList entries);;
        subprocess_run E false (FfmpegConcat concat_file final_path);;
        ret (Some final_path)
    end.

(** The loop over the segments of [generate_video_offline]. *)
Fixpoint generate_segments (voice_id style : pystr)
    (segments : list (nat * pystr)) (video_segments : list string)
  : M (list string) :=
  match segments with
  | [] => ret video_segments
  | (i, segment) :: segments' =>
      audio_path <- generate_speech_offline segment voice_id;;
      image_path <- generate_image_offline segment style;;
      segment_path <- create_video_segment image_path audio_path i;;
      generate_segments voice_id style segments'
        (video_segments ++ [segment_path])
  end.

Definition generate_video_offline (script voice_id style : pystr)
  : M (option string) :=
  try_except
    (let segments := split_script script in
     video_segments <-
       generate_segments voice_id style (enumerate segments) [];;
     final_video <- combine_video_segments video_segments;;
     ret final_video)
    (fun _ => ret None).

End Service.

End OfflineAIService.

(** ** offline_video.py *)

Module OfflineVideo.

Section Routes.

Variable E : Env.

(** [offline_ai], constructed when the module is loaded: its speech engine
    and its sample arithmetic, and [save_generated_video], which records
    the video in the local database and answers its id. *)
Variable tts_engine : OfflineAIService.engine.
Variable beep : Z -> Z -> Z.
Variable save_generated_video : pystr -> pystr -> string -> M string.

Definition generate_video_offline (request_json : option (gmap string pystr))
  : M Video.response :=
  try_except
    (data <- match request_json with
             | Some data => ret data
             | None => raise (Exception "request.json is not an object")
             end;;
     let script := default [] (data !! "script") in
     let voice_id := default (lit "default") (data !! "voice_id") in
     let style := default (lit "business") (data !! "style") in
     let title := default (lit "Untitled Video") (data !! "title") in
     if negb (truthy script)
     then ret (Video.Rejected "Script is required" 400)
     else
       video_path <-
         OfflineAIService.generate_video_offline E tts_engine beep
           script voice_id style;;
       found <- match video_path with
                | Some path => os_path_exists path
                | None => ret false
                end;;
       match video_path, found with
       | Some path, true =>
           video_id <- save_generated_video title script path;;
           ret (Video.Completed video_id
                  ("/api/offline/download-video/" +:+ video_id)
                  "Video generated successfully offline")
       | _, _ =>
           ret (Video.Rejected "Failed to generate video offline" 500)
       end)
    (fun e => ret (Video.Failed e 500)).

End Routes.

End OfflineVideo.

(** ** The specification's own wording of the detector

    Section 4.2 describes [detect_language] by two counts and a ratio;
    these definitions follow that description, not the loop of the
    source. *)

Module Spec.

Definition in_script_range (c : Z) : bool := (0x0F00 <=? c) && (c <=? 0x0FFF).

(** Characters whose code point falls in the designated script range. *)
Definition matched (text : pystr) : Z :=
  Z.of_nat (List.length (List.filter in_script_range text)).

(** Total non-whitespace characters. *)
Definition total (text : pystr) : Z :=
  Z.of_nat (List.length (List.filter (fun c => negb (isspace c)) text)).

Definition match_ratio (text : pystr) : Q :=
  (inject_Z (matched text) / inject_Z (total text))%Q.

Definition detect (text : pystr) : Dzongkha.detection :=
  if total text =? 0
  then Dzongkha.Detection "unknown" 0
  else if Qlt_le_dec (1 # 2) (match_ratio text)
  then Dzongkha.Detection "dz" (match_ratio text)
  else Dzongkha.Detection "other" (1 - match_ratio text)%Q.

End Spec.

(** ** Concrete environments

    Worlds and environments on which the services are run in the examples
    below. *)

Module Scenario.

(** ASCII letters and their lower case. *)
Definition ascii_isalpha (c : Z) : bool :=
  ((0x41 <=? c) && (c <=? 0x5A)) || ((0x61 <=? c) && (c <=? 0x7A)).

Definition ascii_lower (c : Z) : pystr :=
  if (0x41 <=? c) && (c <=? 0x5A) then [c + 32] else [c].

(** Every remote provider is down; a child process exits with the code
    [exit_of] gives its command line; the files [writable] accepts can be
    written.  The hash of a text is its first code point. *)
Definition providers_down (exit_of : cmd -> Z) (writable : string -> bool)
  : Env :=
  MkEnv
    (fun c _ => Exited (exit_of c))
    (fun path _ => writable path)
    (fun _ _ => None)
    (fun _ _ => None)
    (fun _ _ _ => None)
    (fun _ _ _ => None)
    (fun _ _ => None)
    (fun text => List.hd 0 text)
    ascii_isalpha
    ascii_lower
    (fun _ => "style")
    (fun _ => "job").

(** No muxer at all: every child process fails. *)
Definition muxer_down : Env := providers_down (fun _ => 1) (fun _ => true).

(** Only the colour render of the hash fails. *)
Definition black_only : Env :=
  providers_down
    (fun c => match c with FfmpegStill (Hex _) _ => 1 | _ => 0 end)
    (fun _ => true).

(** Clips are built and copied, but concatenation fails. *)
Definition concat_down : Env :=
  providers_down
    (fun c => match c with FfmpegConcat _ _ => 1 | _ => 0 end)
    (fun _ => true).

(** Every child process succeeds, but the speech of a text that starts
    with T (code point 84) cannot be written. *)
Definition no_speech_for_T : Env :=
  providers_down (fun _ => 0)
    (fun path => negb (String.eqb path "/tmp/offline_ai/speech_84.wav")).

Definition empty_world : World := MkWorld ∅ [].

(** Two scene clips left in the offline work directory. *)
Definition two_clips : World :=
  MkWorld
    (<["/tmp/offline_ai/segment_0.mp4" := Clip (Still (Hex 1)) (Silence 5)]>
       (<["/tmp/offline_ai/segment_1.mp4" := Clip (Still (Hex 2)) (Silence 7)]>
          ∅))
    [].

(** Two audio-image pairs in the output folder of the online pipeline. *)
Definition two_pairs : World :=
  MkWorld
    (list_to_map
       [("a0.wav", Silence 5); ("i0.png", Still (Hex 1));
        ("a1.wav", Silence 7); ("i1.png", Still (Hex 2))])
    [].

Definition body (script : string) : option (gmap string pystr) :=
  Some {["script" := lit script]}.

(** A store that answers a fixed id. *)
Definition save (title script : pystr) (video_path : string) : M string :=
  ret "video_1".

End Scenario.

(** ** Vocabulary of the further properties *)

(** A text is clean when it is not empty and neither starts nor ends with
    whitespace. *)
Definition clean (s : pystr) : Prop :=
  (exists c r, s = c :: r /\ isspace c = false)
  /\ (exists c r, List.rev s = c :: r /\ isspace c = false).

(** A segment of the online splitter is well formed for a list of
    sentences when it is clean and is either one of the sentences, stripped,
    or at most 202 characters long. *)
Definition well_formed_segment (sentences : list pystr) (segment : pystr)
  : Prop :=
  clean segment
  /\ (In segment (List.map strip sentences) \/ len segment <= 202).

(** ** video.py: the file-type test of the upload route *)

Module VideoUploads.

Definition ALLOWED_EXTENSIONS : list pystr :=
  List.map lit ["wav"; "mp3"; "mp4"; "avi"; "mov"; "m4a"; "aac"].

(** ['.' in filename]. *)
Definition has_dot (filename : pystr) : bool :=
  List.existsb (fun c => c =? 0x2E) filename.

(** [filename.rsplit('.', 1)]: the text before and after the last dot, or
    the whole text when there is no dot.  The text is read from its end;
    [after] is what has been passed. *)
Fixpoint rsplit_from_end (reversed after : pystr) : list pystr :=
  match reversed with
  | [] => [after]
  | c :: reversed' =>
      if c =? 0x2E
      then [List.rev reversed'; after]
      else rsplit_from_end reversed' (c :: after)
  end.

Definition rsplit_dot (filename : pystr) : list pystr :=
  rsplit_from_end (List.rev filename) [].

Section Lower.

(** [str.lower]. *)
Variable lower : pystr -> pystr.

Definition allowed_file (filename : pystr) : bool :=
  has_dot filename
  && match rsplit_dot filename !! 1%nat with
     | Some extension =>
         bool_decide (lower extension ∈ ALLOWED_EXTENSIONS)
     | None => false
     end.

End Lower.

End VideoUploads.

(** ** image_generation.py: several images and the thumbnail *)

Module ImageBatches.

(** [f"{i:03d}"]: the decimal digits, padded with zeros to three places. *)
Definition format_03d (i : nat) : string :=
  let digits := pretty i in
  String.concat "" (List.repeat "0"%string (3 - String.length digits))
  +:+ digits.

Section Service.

Variable E : Env.

(** The loop of [generate_multiple_images]. *)
Fixpoint generate_images (output_dir style : string)
    (segments : list (nat * pystr)) (image_paths : list string)
  : M (list string) :=
  match segments with
  | [] => ret image_paths
  | (i, segment) :: segments' =>
      let output_path :=
        path_join output_dir ("image_" +:+ format_03d i +:+ ".png") in
      path <-
        try_except
          (ImageGeneration.generate_image_from_text E segment output_path style)
          (fun _ => ImageGeneration._generate_fallback_image E segment output_path);;
      generate_images output_dir style segments' (image_paths ++ [path])
  end.

Definition generate_multiple_images (text_segments : list pystr)
    (output_dir style : string) : M (list string) :=
  generate_images output_dir style (enumerate text_segments) [].

Definition create_video_thumbnail (title_text : pystr) (output_path : string)
  : M string :=
  try_except
    (let prompt :=
       lit "Video thumbnail for: " ++ title_text
       ++ lit ", professional, eye-catching, YouTube style thumbnail" in
     ImageGeneration.generate_image_from_text E prompt output_path "cinematic")
    (fun _ => ImageGeneration._generate_fallback_image E title_text output_path).

End Service.

End ImageBatches.

(** ** Vocabulary for the offline synthetic speech *)

(** The characters [str.isalpha] accepts, counted. *)
Definition letters (E : Env) (text : pystr) : Z :=
  Z.of_nat (List.length (List.filter (py_isalpha E) text)).

(** A character is singly cased when it is no letter or its lower-case form
    is one character. *)
Definition singly_cased (E : Env) (c : Z) : Prop :=
  py_isalpha E c = true -> exists lowered, py_lower E c = [lowered].

(** A letter whose lower-case form is not one character. *)
Definition multiply_cased (E : Env) (c : Z) : Prop :=
  py_isalpha E c = true /\ forall lowered, py_lower E c <> [lowered].

(** ** dzongkha_service.py: speech and translation *)

Module DzongkhaSpeech.

Definition temp_dir : string := "/tmp/dzongkha_service".

(** The fallback engines [setup_fallback_tts] can choose. *)
Inductive engine := espeak | synthetic.

(** The attributes of the service the speech methods read: whether
    [tts_model] was set, the flag [tts_available], and [tts_engine], which
    is set only when the fallback set-up ran to its end. *)
Record service := Service {
  has_tts_model : bool;
  tts_available : bool;
  tts_engine : option engine;
  translation_available : bool
}.

Section Service.

Variable E : Env.
Variable self : service.

(** The samples of the Dzongkha tone generator. *)
Variable amplitude : Z -> Dzongkha.tone_type -> Z -> Z.

(** The waveform of the loaded model for a text, or [None] when the
    tokenizer or the model raises. *)
Variable vits_waveform : pystr -> World -> option (list Z).

Definition generate_tts_fallback (text : pystr) (output_path : string)
  : M string :=
  match tts_engine self with
  | None =>
      raise (Exception
               "'DzongkhaService' object has no attribute 'tts_engine'")
  | Some espeak =>
      subprocess_run E true (Espeak "dz" text output_path);;
      ret output_path
  | Some synthetic =>
      Dzongkha.generate_synthetic_dzongkha_speech amplitude E text output_path
  end.

Definition generate_tts_with_model (text : pystr) (output_path : string)
  : M string :=
  try_except
    (audio_np <- (fun w => match vits_waveform text w with
                           | Some samples => (Return samples, w)
                           | None => (Raise ProviderError, w)
                           end);;
     write_file E output_path (Pcm (Wave 16000 audio_np));;
     ret output_path)
    (fun _ => generate_tts_fallback text output_path).

Definition text_to_speech_dzongkha (text : pystr) : M string :=
  let output_path :=
    path_join temp_dir
      ("dzongkha_tts_" +:+ pretty (py_hash E text) +:+ ".wav") in
  try_except
    (if has_tts_model self && tts_available self
     then generate_tts_with_model text output_path
     else generate_tts_fallback text output_path)
    (fun _ =>
       Dzongkha.generate_synthetic_dzongkha_speech amplitude E text
         output_path).

(** The dictionary a translation answers. *)
Record translation := Translation {
  translated_text : pystr;
  t_confidence : Q;
  source_lang : option pystr;
  target_lang : option pystr;
  error : string
}.

Definition translate_fallback (text source target : pystr) : translation :=
  Translation
    (lit "[Translation from " ++ source ++ lit " to " ++ target
     ++ lit " not available] " ++ text)
    0 (Some source) (Some target) "Translation model not available".

(** [translate_with_model] is called but defined nowhere: the call raises
    an [AttributeError], which the handler of [translate_text] turns into
    an answer. *)
Definition translate_text (text source target : pystr) : M translation :=
  try_except
    (if translation_available self
     then raise (Exception
                   "'DzongkhaService' object has no attribute 'translate_with_model'")
     else ret (translate_fallback text source target))
    (fun e =>
       ret (Translation text 0 None None
              match e with
              | Exception msg => msg
              | _ => ""
              end)).

End Service.

End DzongkhaSpeech.

(** ** dzongkha.py: the text-to-speech route *)

Module DzongkhaRoutes.

(** What the route answers: a file sent as an attachment, an error with its
    status, the validation error with the validation, or the error of an
    exception with status 500. *)
Inductive answer :=
  | SentFile (path download_name : string)
  | Refused (error : string) (status : Z)
  | RefusedAs (error : string) (validation : Dzongkha.validation) (status : Z)
  | Crashed (e : exn) (status : Z).

Section Routes.

Variable E : Env.
Variable self : DzongkhaSpeech.service.
Variable amplitude : Z -> Dzongkha.tone_type -> Z -> Z.
Variable vits_waveform : pystr -> World -> option (list Z).

Definition dzongkha_text_to_speech (request_json : option (gmap string pystr))
  : M answer :=
  try_except
    (data <- match request_json with
             | Some data => ret data
             | None => raise (Exception "request.json is not an object")
             end;;
     let text := default [] (data !! "text") in
     if negb (truthy text)
     then ret (Refused "Text is required" 400)
     else
       let validation := Dzongkha.validate_dzongkha_text text in
       if negb (Dzongkha.is_valid validation)
          && (if Qlt_le_dec (Dzongkha.v_confidence validation) (3 # 10)
              then true else false)
       then ret (RefusedAs "Text does not appear to be in Dzongkha script"
                   validation 400)
       else
         audio_path <-
           DzongkhaSpeech.text_to_speech_dzongkha E self amplitude
             vits_waveform text;;
         found <- os_path_exists audio_path;;
         if found
         then ret (SentFile audio_path
                     ("dzongkha_speech_" +:+ pretty (py_hash E text)
                      +:+ ".wav"))
         else ret (Refused "Failed to generate speech" 500))
    (fun e => ret (Crashed e 500)).

End Routes.

End DzongkhaRoutes.

(** ** voice_cloning.py: cloning a voice from a sample *)

Module VoiceSamples.

(** [os.path.basename]: what follows the last slash.  [name] is the text
    read since the last slash. *)
Fixpoint basename_from (path name : string) : string :=
  match path with
  | EmptyString => name
  | String c path' =>
      if Ascii.eqb c "/"%char
      then basename_from path' EmptyString
      else basename_from path' (name +:+ String c EmptyString)
  end.

Definition basename (path : string) : string := basename_from path EmptyString.

(** The metadata kept for a fallback voice. *)
Record voice_metadata := VoiceMetadata {
  voice_id : pystr;
  original_file : string;
  voice_name : pystr;
  service : string
}.

Section Service.

Variable E : Env.
Variable client : bool.

(** [self.client.clone(...).voice_id], or [None] when the call raises. *)
Variable elevenlabs_clone : pystr -> string -> World -> option pystr.

(** [json.dump] of the metadata, as bytes. *)
Variable json_dump : voice_metadata -> list Z.

Definition _fallback_voice_processing (audio_file_path : string)
    (voice_name : pystr) : M pystr :=
  let voice_id :=
    lit "fallback_" ++ voice_name ++ lit "_"
    ++ lit (pretty (py_hash E (lit audio_file_path) mod 10000)) in
  let voice_metadata :=
    VoiceMetadata voice_id audio_file_path voice_name "fallback" in
  let metadata_path :=
    "/tmp/voice_metadata_" +:+ fsencode E voice_id +:+ ".json" in
  write_file E metadata_path (Bytes (json_dump voice_metadata));;
  ret voice_id.

Definition _clone_with_elevenlabs (audio_file_path : string)
    (voice_name : pystr) : M pystr :=
  try_except
    (found <- os_path_exists audio_file_path;;
     if found
     then (fun w =>
             match elevenlabs_clone voice_name audio_file_path w with
             | Some voice_id => (Return voice_id, w)
             | None => (Raise ProviderError, w)
             end)
     else raise (OSError audio_file_path))
    (fun _ => _fallback_voice_processing audio_file_path voice_name).

(** [voice_name] is [None] or a name; an empty name counts as none. *)
Definition clone_voice_from_sample (audio_file_path : string)
    (voice_name : option pystr) : M pystr :=
  let voice_name :=
    match voice_name with
    | Some name => if truthy name then name
                   else lit "cloned_voice_" ++ lit (basename audio_file_path)
    | None => lit "cloned_voice_" ++ lit (basename audio_file_path)
    end in
  if client
  then _clone_with_elevenlabs audio_file_path voice_name
  else _fallback_voice_processing audio_file_path voice_name.

End Service.

End VoiceSamples.

(** ** offline_ai_service.py: the drafts kept in the local database *)

Module OfflineDrafts.

(** The columns of a row of the table [drafts] besides its primary key
    [id]; [settings] holds the text written by [json.dumps]. *)
Record row := Row {
  title : pystr;
  script : pystr;
  voice_id : pystr;
  settings : pystr;
  created_at : Q;
  updated_at : Q
}.

(** The table [drafts], by primary key. *)
Definition table := gmap pystr row.

Inductive error :=
  | IntegrityError (key : pystr)
  | UnicodeEncodeError (text : pystr)
  | JSONDecodeError (text : pystr)
  | AttributeError.

(** A text can be bound to a statement when it can be encoded as UTF-8,
    that is when it holds no surrogate code point. *)
Definition encodable (text : pystr) : bool :=
  List.forallb (fun c => negb ((0xD800 <=? c) && (c <=? 0xDFFF))) text.

(** [int(x)] of a float: truncation towards zero. *)
Definition int (x : Q) : Z := Z.quot (Qnum x) (Z.pos (Qden x)).

(** [INSERT INTO drafts]: the texts are bound in the order of the columns,
    which raises at the first that cannot be encoded; the row is refused
    when the primary key is taken. *)
Definition insert_draft (key : pystr) (r : row) (db : table)
  : (error + unit) * table :=
  match
    List.find (fun text => negb (encodable text))
      [key; title r; script r; voice_id r; settings r]
  with
  | Some text => (inl (UnicodeEncodeError text), db)
  | None =>
      match db !! key with
      | Some _ => (inl (IntegrityError key), db)
      | None => (inr tt, <[key := r]> db)
      end
  end.

Section Service.

(** The values of the field [settings] with [json.dumps], [json.loads]
    ([None] when it raises) and the empty object. *)
Variable settings_value : Type.
Variable json_dumps : settings_value -> pystr.
Variable json_loads : pystr -> option settings_value.
Variable empty_object : settings_value.

(** What [load_draft] answers for a row. *)
Record draft := Draft {
  draft_id : pystr;
  draft_title : pystr;
  draft_script : pystr;
  draft_voice_id : pystr;
  draft_settings : settings_value;
  draft_created_at : Q;
  draft_updated_at : Q
}.

(** [now0], [now1] and [now2] are the three readings of [datetime.now()],
    the first as a timestamp. *)
Definition save_draft (now0 now1 now2 : Q) (title script voice_id : pystr)
    (settings : settings_value) (db : table) : (error + pystr) * table :=
  let draft_id := lit "draft_" ++ lit (pretty (int now0)) in
  match
    insert_draft draft_id
      (Row title script voice_id (json_dumps settings) now1 now2) db
  with
  | (inl e, db) => (inl e, db)
  | (inr _, db) => (inr draft_id, db)
  end.

Definition load_draft (draft_id : pystr) (db : table) : error + option draft :=
  if negb (encodable draft_id)
  then inl (UnicodeEncodeError draft_id)
  else
    match db !! draft_id with
    | Some r =>
        if truthy (settings r)
        then match json_loads (settings r) with
             | Some value =>
                 inr (Some (Draft draft_id (title r) (script r) (voice_id r)
                              value (created_at r) (updated_at r)))
             | None => inl (JSONDecodeError (settings r))
             end
        else inr (Some (Draft draft_id (title r) (script r) (voice_id r)
                          empty_object (created_at r) (updated_at r)))
    | None => inr None
    end.

End Service.

End OfflineDrafts.

(** ** offline_video.py: the routes of the drafts *)

Module OfflineDraftRoutes.

Import OfflineDrafts.

Section Routes.

Variable settings_value : Type.
Variable json_dumps : settings_value -> pystr.
Variable json_loads : pystr -> option settings_value.
Variable empty_object : settings_value.

Inductive answer :=
  | Saved (draft_id : pystr)
  | Loaded (d : draft settings_value)
  | Refused (error : string) (status : Z)
  | Crashed (e : error) (status : Z).

(** [request_json] holds the text fields of the body and [settings_field]
    its field [settings], when it has one. *)
Definition save_draft (now0 now1 now2 : Q)
    (request_json : option (gmap string pystr))
    (settings_field : option settings_value) (db : table) : answer * table :=
  match request_json with
  | None => (Crashed AttributeError 500, db)
  | Some data =>
      let title := default (lit "Untitled Draft") (data !! "title") in
      let script := default [] (data !! "script") in
      let voice_id := default (lit "default") (data !! "voice_id") in
      let settings := default empty_object settings_field in
      if negb (truthy script)
      then (Refused "Script is required" 400, db)
      else
        match
          OfflineDrafts.save_draft settings_value json_dumps now0 now1 now2
            title script voice_id settings db
        with
        | (inr draft_id, db) => (Saved draft_id, db)
        | (inl e, db) => (Crashed e 500, db)
        end
  end.

Definition load_draft (draft_id : pystr) (db : table) : answer :=
  match
    OfflineDrafts.load_draft settings_value json_loads empty_object draft_id db
  with
  | inr (Some d) => Loaded d
  | inr None => Refused "Draft not found" 404
  | inl e => Crashed e 500
  end.

End Routes.

End OfflineDraftRoutes.

(** ** offline_ai_service.py: the text drawn over an image *)

Module TextOverlay.

(** [' '.join(words)]. *)
Fixpoint join (words : list pystr) : pystr :=
  match words with
  | [] => []
  | [word] => word
  | word :: rest => word ++ 0x20 :: join rest
  end.

Inductive fill := black | white.

(** A call of [draw.text((x, y), line, fill=..., font=font)]. *)
Record text_call := Text { x : Z; y : Z; line : pystr; colour : fill }.

Section Drawing.

(** The width of the box of a line in the font in use:
    [bbox[2] - bbox[0]] of [draw.textbbox((0, 0), line, font=font)]. *)
Variable text_width : pystr -> Z.

(** The body of the loop over the words: [lines] and [current_line]
    before and after one word. *)
Definition wrap_word (state : list pystr * list pystr) (word : pystr)
  : list pystr * list pystr :=
  let '(lines, current_line) := state in
  let test_line := join (current_line ++ [word]) in
  if text_width test_line <? 1000
  then (lines, current_line ++ [word])
  else ((if nonempty current_line then lines ++ [join current_line]
         else lines),
        [word]).

Definition wrap (text : pystr) : list pystr :=
  let words := split_whitespace text [] in
  let '(lines, current_line) := List.fold_left wrap_word words ([], []) in
  if nonempty current_line then lines ++ [join current_line] else lines.

(** The calls of [draw.text], in order: every line with its shadow
    first. *)
Definition add_text_to_image (text : pystr) : list text_call :=
  let lines := wrap text in
  let y_offset := (720 - Z.of_nat (List.length lines) * 60) / 2 in
  List.concat
    (List.map
       (fun '(i, line) =>
          let x := (1280 - text_width line) / 2 in
          let y := y_offset + Z.of_nat i * 60 in
          [Text (x + 2) (y + 2) line black; Text x y line white])
       (enumerate lines)).

End Drawing.

End TextOverlay.

(** ** video.py: the routes that look a job up *)

Module VideoJobs.

Inductive answer :=
  | SentFile (path download_name : string)
  | JobCompleted (job_id video_url : string)
  | JobProcessing (job_id : string)
  | Refused (error : string) (status : Z)
  | Crashed (e : exn) (status : Z).

Definition download_video (job_id : string) : M answer :=
  try_except
    (let video_path := path_join Video.OUTPUT_FOLDER (job_id +:+ ".mp4") in
     found <- os_path_exists video_path;;
     if found
     then ret (SentFile video_path
                 ("dawa_present_video_" +:+ job_id +:+ ".mp4"))
     else ret (Refused "Video not found" 404))
    (fun e => ret (Crashed e 500)).

Definition get_job_status (job_id : string) : M answer :=
  try_except
    (let video_path := path_join Video.OUTPUT_FOLDER (job_id +:+ ".mp4") in
     found <- os_path_exists video_path;;
     if found
     then ret (JobCompleted job_id ("/api/download-video/" +:+ job_id))
     else ret (JobProcessing job_id))
    (fun e => ret (Crashed e 500)).

End VideoJobs.

(** ** dzongkha_service.py: the script template *)

Module DzongkhaScripts.

Record script_generation := ScriptGeneration {
  dzongkha_script : pystr;
  needs_translation : bool;
  original_script : pystr
}.

(** The text of the template before and after the English script, with
    its line breaks (code point 10) and the indentation of the source. *)
Definition template_before : pystr :=
  [10] ++ lit "        [Dzongkha Translation Needed]"
  ++ [10] ++ lit "        "
  ++ [10] ++ lit "        Original English: ".

Definition template_after : pystr :=
  [10] ++ lit "        "
  ++ [10]
  ++ lit "        Note: This requires a specialized Dzongkha-English translation model."
  ++ [10]
  ++ lit "        Consider using human translation for accurate results."
  ++ [10] ++ lit "        ".

Definition generate_dzongkha_video_script (english_script : pystr)
  : script_generation :=
  let dzongkha_template := template_before ++ english_script ++ template_after in
  ScriptGeneration dzongkha_template true english_script.

End DzongkhaScripts.

(** ** dzongkha.py: the route that prepares a Dzongkha video *)

Module DzongkhaVideoRoutes.

Record video_data := VideoData {
  script : pystr;
  english_script : pystr;
  audio_path : option string;
  style : pystr;
  title : pystr;
  validation : Dzongkha.validation
}.

Inductive answer :=
  | Prepared (data : video_data) (job_id : string)
  | Refused (error : string) (status : Z)
  | Crashed (e : exn) (status : Z).

Section Routes.

Variable E : Env.
Variable self : DzongkhaSpeech.service.
Variable amplitude : Z -> Dzongkha.tone_type -> Z -> Z.
Variable vits_waveform : pystr -> World -> option (list Z).

Definition generate_video_with_dzongkha
    (request_json : option (gmap string pystr)) : M answer :=
  try_except
    (data <- match request_json with
             | Some data => ret data
             | None => raise (Exception "request.json is not an object")
             end;;
     let dzongkha_script := default [] (data !! "dzongkha_script") in
     let english_script := default [] (data !! "english_script") in
     let voice_preference :=
       default (lit "dzongkha") (data !! "voice_preference") in
     let style := default (lit "traditional") (data !! "style") in
     let title := default (lit "Dzongkha Video") (data !! "title") in
     if negb (truthy dzongkha_script) && negb (truthy english_script)
     then ret (Refused "Either Dzongkha or English script is required" 400)
     else
       let dzongkha_script :=
         if negb (truthy dzongkha_script) && truthy english_script
         then DzongkhaScripts.dzongkha_script
                (DzongkhaScripts.generate_dzongkha_video_script english_script)
         else dzongkha_script in
       let validation := Dzongkha.validate_dzongkha_text dzongkha_script in
       audio_path <-
         (if bool_decide (voice_preference = lit "dzongkha")
             && Dzongkha.is_valid validation
          then try_except
                 (path <- DzongkhaSpeech.text_to_speech_dzongkha E self
                            amplitude vits_waveform dzongkha_script;;
                  ret (Some path))
                 (fun _ => ret None)
          else ret None);;
       job_id <- (fun w => (Return ("dzongkha_video_" +:+ uuid4 E w), w));;
       ret (Prepared
              (VideoData dzongkha_script english_script audio_path style
                 title validation)
              job_id))
    (fun e => ret (Crashed e 500)).

End Routes.

End DzongkhaVideoRoutes.

(** * Properties *)

(** ** Text helpers *)

Lemma strip_single (c : Z) : truthy (strip [c]) = negb (isspace c).
Proof.
  unfold strip, rstrip. simpl.
  destruct (isspace c) eqn:Hc; simpl; rewrite ?Hc; reflexivity.
Qed.

Lemma in_script_range_not_space (c : Z) :
  Spec.in_script_range c = true -> isspace c = false.
Proof.
  unfold Spec.in_script_range, isspace. intros H.
  apply andb_true_iff in H. destruct H as [Hlo Hhi].
  apply Z.leb_le in Hlo. apply Z.leb_le in Hhi.
  repeat match goal with
         | |- context [?a <=? ?b] => destruct (Z.leb_spec a b); try lia
         | |- context [?a =? ?b] => destruct (Z.eqb_spec a b); try lia
         end; reflexivity.
Qed.

(** ** Language detection *)

Section Detection.

Import Dzongkha.

Lemma count_in_ranges_spec (c d : Z) :
  count_in_ranges dzongkha_ranges c d
  = if Spec.in_script_range c then d + 1 else d.
Proof. reflexivity. Qed.

(** The loop computes the two counts of the specification. *)
Lemma count_chars_spec (text : list Z) : forall d t,
  count_chars text d t = (d + Spec.matched text, t + Spec.total text).
Proof.
  unfold Spec.matched, Spec.total.
  induction text as [|c text IH]; intros d t.
  - simpl. f_equal; lia.
  - cbn [count_chars]. rewrite strip_single, count_in_ranges_spec.
    unfold ord. cbn [List.filter].
    destruct (isspace c) eqn:Hs; simpl.
    + destruct (Spec.in_script_range c) eqn:Hr.
      * apply in_script_range_not_space in Hr. congruence.
      * apply IH.
    + rewrite IH. destruct (Spec.in_script_range c); simpl;
        f_equal; lia.
Qed.

Lemma matched_le_total (text : list Z) :
  0 <= Spec.matched text <= Spec.total text.
Proof.
  unfold Spec.matched, Spec.total. split; [lia|].
  apply inj_le.
  induction text as [|c text IH]; simpl; [lia|].
  destruct (Spec.in_script_range c) eqn:Hr.
  - rewrite (in_script_range_not_space _ Hr). simpl. lia.
  - destruct (isspace c); simpl; lia.
Qed.

Lemma match_ratio_bounds (text : list Z) :
  Spec.total text <> 0 ->
  (0 <= Spec.match_ratio text <= 1)%Q.
Proof.
  intros Hne. pose proof (matched_le_total text) as [H0 H1].
  assert (Ht : (0 < inject_Z (Spec.total text))%Q).
  { rewrite <- (Zlt_Qlt 0). lia. }
  unfold Spec.match_ratio. split.
  - apply Qle_shift_div_l; [exact Ht|].
    rewrite Qmult_0_l. rewrite <- (Zle_Qle 0). exact H0.
  - apply Qle_shift_div_r; [exact Ht|].
    rewrite Qmult_1_l. rewrite <- Zle_Qle. exact H1.
Qed.

(** The loop of the source and the description of the specification give
    the same answer. *)
Lemma detect_language_refines (text : list Z) :
  detect_language text = Spec.detect text.
Proof.
  unfold detect_language. rewrite count_chars_spec.
  rewrite !Z.add_0_l. reflexivity.
Qed.

End Detection.

Section DetectionClaims.

Import Dzongkha.

(** C3. [detect_language] is a function of the text alone.  It counts the
    characters in the designated script range against the non-whitespace
    characters; with no non-whitespace character the answer is "unknown"
    with confidence 0; otherwise the answer is "dz" with the match ratio
    when that ratio exceeds one half, and "other" with one minus the ratio
    when it does not.  The confidence always lies between 0 and 1. *)
Theorem detect_language_counts_ratio (text : list Z) :
  detect_language text = Spec.detect text
  /\ (0 <= confidence (detect_language text) <= 1)%Q.
Proof.
  pose proof (detect_language_refines text) as Heq.
  split; [exact Heq|]. rewrite Heq. unfold Spec.detect.
  destruct (Z.eqb_spec (Spec.total text) 0) as [Hz|Hnz]; simpl.
  - split; apply Qle_bool_iff; reflexivity.
  - pose proof (match_ratio_bounds text Hnz) as [Hlo Hhi].
    destruct (Qlt_le_dec (1 # 2) (Spec.match_ratio text)); simpl.
    + split; assumption.
    + split; lra.
Qed.

(** C4. [validate_dzongkha_text] reports a text as valid exactly when
    [detect_language] labels it "dz", and it reports the confidence of
    [detect_language] on the same text. *)
Theorem validate_agrees_with_detect (text : list Z) :
  is_valid (validate_dzongkha_text text)
  = bool_decide (language (detect_language text) = "dz"%string)
  /\ v_confidence (validate_dzongkha_text text)
     = confidence (detect_language text).
Proof.
  unfold validate_dzongkha_text. simpl. split; [|reflexivity].
  destruct (String.eqb_spec (language (detect_language text)) "dz").
  - rewrite bool_decide_eq_true_2; auto.
  - rewrite bool_decide_eq_false_2; auto.
Qed.

Lemma total_pos_iff (text : list Z) :
  0 < Spec.total text <-> exists c, In c text /\ isspace c = false.
Proof.
  unfold Spec.total. induction text as [|c text IH]; simpl.
  - split; [lia|]. intros [c [[] _]].
  - destruct (isspace c) eqn:Hc; simpl.
    + rewrite IH. split.
      * intros [d [Hin Hd]]. exists d. auto.
      * intros [d [[->|Hin] Hd]]; [congruence|]. exists d. auto.
    + split; [|lia]. intros _. exists c. auto.
Qed.

(** C10. A text with at least one non-whitespace character is detected
    with confidence at least one half; a confidence below one half is
    returned only for a text without non-whitespace characters, and the
    answer is then "unknown" with confidence 0. *)
Theorem detect_language_confidence_at_least_half (text : list Z) :
  ((exists c, In c text /\ isspace c = false) ->
   (1 # 2 <= confidence (detect_language text))%Q)
  /\ ((confidence (detect_language text) < 1 # 2)%Q ->
      Forall (fun c => isspace c = true) text
      /\ detect_language text = Detection "unknown" 0).
Proof.
  rewrite (detect_language_refines text). unfold Spec.detect.
  pose proof (total_pos_iff text) as Hpos.
  pose proof (matched_le_total text) as Hle.
  destruct (Z.eqb_spec (Spec.total text) 0) as [Hz|Hnz]; simpl.
  - split.
    + intros Hex. apply Hpos in Hex. lia.
    + intros _. split; [|reflexivity].
      apply List.Forall_forall. intros c Hin.
      destruct (isspace c) eqn:Hc; [reflexivity|].
      assert (0 < Spec.total text) by (apply Hpos; eauto). lia.
  - destruct (Qlt_le_dec (1 # 2) (Spec.match_ratio text)); simpl.
    + split; intros; lra.
    + split; intros; lra.
Qed.

Lemma detect_language_confidence_at_least_half_witness :
  (1 # 2 <= confidence (detect_language (lit "a")))%Q
  /\ (Forall (fun c => isspace c = true) (lit " ")
      /\ detect_language (lit " ") = Detection "unknown" 0).
Proof.
  split.
  - apply (proj1 (detect_language_confidence_at_least_half (lit "a"))).
    exists 97. split; [left; reflexivity | reflexivity].
  - apply (proj2 (detect_language_confidence_at_least_half (lit " "))).
    reflexivity.
Defined.

End DetectionClaims.

(** ** The synthetic tone generator *)

Section Tones.

Import Dzongkha.

(** C5.  At U+0F40, the first of the Dzongkha consonants, the generator
    plays the high tone at 234 Hz: the test for the whole Tibetan block
    comes first and holds for every consonant, so no code point reaches the
    mid tone. *)
Theorem tone_mid_band_unreachable :
  tone_of 0x0F40 = (234, high)
  /\ forall char_code, snd (tone_of char_code) <> mid.
Proof.
  split; [reflexivity|]. intros c. unfold tone_of.
  destruct (Z.leb_spec 0x0F00 c), (Z.leb_spec c 0x0FFF); simpl;
    try discriminate;
    destruct (Z.leb_spec 0x0F40 c), (Z.leb_spec c 0x0F6C); simpl;
    try discriminate; lia.
Qed.

Variable amplitude : Z -> tone_type -> Z -> Z.

Lemma char_frames_length (c : Z) :
  Z.of_nat (List.length (char_frames amplitude c))
  = if isspace c then samples_per_silence else samples_per_tone.
Proof.
  unfold char_frames. rewrite strip_single.
  destruct (isspace c); cbn [negb];
    [|destruct (tone_of (ord c))];
    rewrite List.length_map, length_seqZ; reflexivity.
Qed.

(** The number of frames grows with the text: 3307 per non-whitespace
    character and 2205 per whitespace character. *)
Lemma synthetic_frames_length (text : list Z) :
  Z.of_nat (List.length (synthetic_frames amplitude text))
  = samples_per_tone * Spec.total text
    + samples_per_silence * (len text - Spec.total text).
Proof.
  unfold synthetic_frames, Spec.total, len.
  induction text as [|c text IH]; [reflexivity|].
  cbn [List.flat_map List.filter List.length].
  rewrite List.length_app, Nat2Z.inj_add, IH, char_frames_length.
  unfold samples_per_tone, samples_per_silence.
  destruct (isspace c); cbn [negb List.length]; lia.
Qed.

End Tones.

(** ** Scene segmentation *)

Lemma space_not_terminator (c : Z) :
  isspace c = true -> is_terminator c = false.
Proof.
  unfold isspace, is_terminator. intros H.
  repeat match goal with
         | |- context [?a =? ?b] => destruct (Z.eqb_spec a b); try lia
         end; try reflexivity; subst; discriminate.
Qed.

Lemma lstrip_spaces (s : list Z) :
  List.Forall (fun c => isspace c = true) s -> lstrip s = [].
Proof.
  induction 1 as [|c s Hc _ IH]; simpl; [reflexivity|].
  rewrite Hc. exact IH.
Qed.

Lemma strip_spaces (s : list Z) :
  List.Forall (fun c => isspace c = true) s -> strip s = [].
Proof. intros H. unfold strip. rewrite (lstrip_spaces s H). reflexivity. Qed.

Lemma re_split_no_terminator (s : list Z) : forall cur in_run,
  List.Forall (fun c => is_terminator c = false) s ->
  re_split_terminators s cur in_run = [List.rev cur ++ s].
Proof.
  induction s as [|c s IH]; intros cur in_run H; simpl.
  - rewrite List.app_nil_r. reflexivity.
  - inversion H as [|? ? Hc Hs]; subst. rewrite Hc, (IH _ _ Hs). simpl.
    rewrite <- List.app_assoc. reflexivity.
Qed.

Lemma split_dot_space_no_dot (s : list Z) : forall cur,
  List.Forall (fun c => c <> 0x2E) s ->
  split_dot_space s cur = [List.rev cur ++ s].
Proof.
  induction s as [|c s IH]; intros cur H.
  - simpl. rewrite List.app_nil_r. reflexivity.
  - inversion H as [|? ? Hc Hs]; subst.
    destruct s as [|d s'].
    + reflexivity.
    + change (split_dot_space (c :: d :: s') cur)
        with (if (c =? 0x2E) && (d =? 0x20)
              then List.rev cur :: split_dot_space s' []
              else split_dot_space (d :: s') (c :: cur)).
      destruct (Z.eqb_spec c 0x2E); [contradiction|]. cbn [andb].
      rewrite (IH _ Hs). cbn [List.rev].
      rewrite <- List.app_assoc. reflexivity.
Qed.

Lemma spaces_no_terminator (s : list Z) :
  List.Forall (fun c => isspace c = true) s ->
  List.Forall (fun c => is_terminator c = false) s.
Proof.
  intros H. eapply List.Forall_impl; [|exact H].
  intros c Hc. apply space_not_terminator. exact Hc.
Qed.

Lemma spaces_no_dot (s : list Z) :
  List.Forall (fun c => isspace c = true) s ->
  List.Forall (fun c => c <> 0x2E) s.
Proof.
  intros H. eapply List.Forall_impl; [|exact H].
  intros c Hc ->. discriminate.
Qed.

(** The splitter of video.py never answers an empty list. *)
Lemma split_script_into_segments_nonempty (script : list Z) :
  Video.split_script_into_segments script <> [].
Proof.
  unfold Video.split_script_into_segments.
  destruct (List.fold_left _ _ _) as [segments current_segment].
  destruct (truthy (strip current_segment));
    [destruct segments | destruct segments]; simpl; discriminate.
Qed.

(** On a script of whitespace it answers the script itself. *)
Lemma split_script_into_segments_spaces (script : list Z) :
  List.Forall (fun c => isspace c = true) script ->
  Video.split_script_into_segments script = [script].
Proof.
  intros H. unfold Video.split_script_into_segments.
  rewrite re_split_no_terminator by (apply spaces_no_terminator; exact H).
  simpl. rewrite (strip_spaces _ H). reflexivity.
Qed.

Section Scenes.

Import AdvancedVideoGeneration.

(** C1.  When the scene-splitting prompt fails, a script made of
    whitespace only, the empty script among them, is parsed into no scene
    at all: the fallback keeps the non-empty sentences and there is none. *)
Theorem parse_script_without_sentence_yields_no_scene
    (E : Env) (script : list Z) (w : World) :
  chat_completion E script w = None ->
  List.Forall (fun c => isspace c = true) script ->
  fst (_parse_script_into_scenes E script w) = Return [].
Proof.
  intros Hfail Hsp.
  unfold _parse_script_into_scenes, try_except, bind, remote.
  rewrite Hfail. simpl.
  rewrite split_dot_space_no_dot by (apply spaces_no_dot; exact Hsp).
  simpl. rewrite (strip_spaces _ Hsp). reflexivity.
Qed.

Lemma parse_script_without_sentence_yields_no_scene_witness :
  fst (_parse_script_into_scenes Scenario.muxer_down [] Scenario.empty_world)
  = Return []
  /\ fst (_parse_script_into_scenes Scenario.muxer_down (lit "  ")
            Scenario.empty_world)
     = Return [].
Proof.
  split; apply parse_script_without_sentence_yields_no_scene;
    try reflexivity; repeat constructor.
Defined.

End Scenes.

(** ** Image generation *)

Section Images.

Import ImageGeneration.




End Images.

(** ** Voice routing *)

Section Voices.

Import VoiceCloning.

Ltac run_speech :=
  repeat match goal with
         | |- context [match ?x with _ => _ end] =>
             match type of x with
             | option _ => destruct x eqn:?
             | spawned => destruct x eqn:?
             | bool => destruct x eqn:?
             | sumbool _ _ => destruct x
             end; cbn [fst snd trace files]
         end.

(** C9, as stated, fails.  The provider a voice belongs to is the one the
    code itself names: an id made by the fallback cloning, an id listed
    with the service "openai", or an id of the cloning provider.  The call
    routes by the prefix of the id alone:
    - an id that starts with "fallback_" is spoken by the OpenAI fallback,
      which is called first, and the cloning provider is never called;
    - with a configured client every other id is sent to the cloning
      provider first, with the text;
    - so every voice listed with the service "openai" is sent to the
      cloning provider first whenever the client is configured, and so is
      the default id of the video route;
    - without a client every id is spoken by the OpenAI fallback. *)
Theorem listed_openai_voice_is_sent_to_elevenlabs
    (E : Env) (client : bool) (text voice_id : list Z)
    (output_path : string) (w : World)
    (voices_get_all : World -> list (list Z * list Z))
    (v : VoiceCatalogue.voice) (w0 : World) :
  (exists added,
      trace (snd (generate_speech E client text voice_id output_path w))
      = added ++ trace w
      /\ (startswith voice_id (lit "fallback_") = true ->
          List.last added (Enter Assembly) = SpeechCreate "alloy" text
          /\ List.forallb (fun ev => negb (to_elevenlabs ev)) added = true)
      /\ (client = true ->
          startswith voice_id (lit "fallback_") = false ->
          List.last added (Enter Assembly)
          = ElevenLabsGenerate text voice_id)
      /\ (client = false ->
          List.last added (Enter Assembly) = SpeechCreate "alloy" text))
  /\ (In v (VoiceCatalogue.list_available_voices client voices_get_all w0) ->
      VoiceCatalogue.service v = "openai"%string ->
      client = true ->
      exists added,
        trace (snd (generate_speech E client text (VoiceCatalogue.voice_id v)
                      output_path w))
        = added ++ trace w
        /\ List.last added (Enter Assembly)
           = ElevenLabsGenerate text (VoiceCatalogue.voice_id v))
  /\ (client = true ->
      exists added,
        trace (snd (generate_speech E client text (lit "default")
                      output_path w))
        = added ++ trace w
        /\ List.last added (Enter Assembly)
           = ElevenLabsGenerate text (lit "default")).
Proof.
  assert (Hroute : forall voice_id,
    exists added,
      trace (snd (generate_speech E client text voice_id output_path w))
      = added ++ trace w
      /\ (startswith voice_id (lit "fallback_") = true ->
          List.last added (Enter Assembly) = SpeechCreate "alloy" text
          /\ List.forallb (fun ev => negb (to_elevenlabs ev)) added = true)
      /\ (client = true ->
          startswith voice_id (lit "fallback_") = false ->
          List.last added (Enter Assembly)
          = ElevenLabsGenerate text voice_id)
      /\ (client = false ->
          List.last added (Enter Assembly) = SpeechCreate "alloy" text)).
  { clear voice_id. intros voice_id. unfold generate_speech.
    destruct client, (startswith voice_id (lit "fallback_"));
      cbn [andb negb];
      unfold _generate_with_elevenlabs, _generate_with_fallback,
        try_except, bind, remote, write_file, subprocess_run, ret;
      cbn [files trace effect];
      run_speech;
      try (eexists [_]; repeat split; (reflexivity || discriminate));
      try (eexists [_; _]; repeat split; (reflexivity || discriminate));
      try (eexists [_; _; _]; repeat split; (reflexivity || discriminate)). }
  split; [apply Hroute|]. split.
  - intros Hin Hservice Hclient.
    assert (Hprefix :
              startswith (VoiceCatalogue.voice_id v) (lit "fallback_")
              = false).
    { unfold VoiceCatalogue.list_available_voices in Hin.
      apply List.in_app_or in Hin. destruct Hin as [Hin|Hin].
      - exfalso. subst client. apply List.in_map_iff in Hin.
        destruct Hin as [[voice_id' name'] [Hv _]]. subst v.
        discriminate Hservice.
      - unfold VoiceCatalogue.fallback_voices in Hin. cbn [In] in Hin.
        repeat (destruct Hin as [<-|Hin]; [reflexivity|]).
        contradiction. }
    destruct (Hroute (VoiceCatalogue.voice_id v))
      as (added & Htrace & _ & Hremote & _).
    exists added. split; [exact Htrace|]. apply Hremote; assumption.
  - intros Hclient.
    destruct (Hroute (lit "default")) as (added & Htrace & _ & Hremote & _).
    exists added. split; [exact Htrace|]. apply Hremote; [assumption|].
    reflexivity.
Qed.

Lemma listed_openai_voice_is_sent_to_elevenlabs_witness :
  (exists added,
      trace (snd (generate_speech Scenario.muxer_down true (lit "Hello")
                    (lit "openai_echo") "a.wav" Scenario.empty_world))
      = added ++ []
      /\ List.last added (Enter Assembly)
         = ElevenLabsGenerate (lit "Hello") (lit "openai_echo"))
  /\ (exists added,
         trace (snd (generate_speech Scenario.muxer_down true (lit "Hello")
                       (lit "fallback_me_17") "a.wav" Scenario.empty_world))
         = added ++ []
         /\ List.last added (Enter Assembly)
            = SpeechCreate "alloy" (lit "Hello")
         /\ List.forallb (fun ev => negb (to_elevenlabs ev)) added = true).
Proof.
  split.
  - apply (proj1 (proj2 (listed_openai_voice_is_sent_to_elevenlabs
                           Scenario.muxer_down true (lit "Hello") []
                           "a.wav" Scenario.empty_world (fun _ => [])
                           (VoiceCatalogue.Voice (lit "openai_echo")
                              (lit "Echo (OpenAI)") "openai")
                           Scenario.empty_world))).
    + right. left. reflexivity.
    + reflexivity.
    + reflexivity.
  - destruct (proj1 (listed_openai_voice_is_sent_to_elevenlabs
                       Scenario.muxer_down true (lit "Hello")
                       (lit "fallback_me_17") "a.wav" Scenario.empty_world
                       (fun _ => [])
                       (VoiceCatalogue.Voice [] [] "")
                       Scenario.empty_world))
      as (added & Htrace & Hfallback & _).
    exists added. split; [exact Htrace|]. apply Hfallback. reflexivity.
Defined.

End Voices.

(** ** The routes *)

Section Jobs.

Import Video.

(** C8.  A request whose script is empty, or absent, is answered at once
    with the validation error and status 400 by both routes, and the world
    is left as it was: no stage is entered, no provider is called, no
    process is started and no file is touched. *)
Theorem empty_script_is_rejected_before_any_stage
    (E : Env) (client : bool) (tts_engine : OfflineAIService.engine)
    (beep : Z -> Z -> Z)
    (save_generated_video : list Z -> list Z -> string -> M string)
    (data : gmap string (list Z)) (w : World) :
  default [] (data !! "script"%string) = [] ->
  generate_video E client (Some data) w
  = (Return (Rejected "Script is required" 400), w)
  /\ OfflineVideo.generate_video_offline E tts_engine beep
       save_generated_video (Some data) w
     = (Return (Rejected "Script is required" 400), w).
Proof.
  intros Hscript.
  unfold generate_video, OfflineVideo.generate_video_offline,
    try_except, bind, ret.
  rewrite Hscript. split; reflexivity.
Qed.

Lemma empty_script_is_rejected_before_any_stage_witness :
  generate_video Scenario.muxer_down true (Scenario.body "")
    Scenario.empty_world
  = (Return (Rejected "Script is required" 400), Scenario.empty_world)
  /\ OfflineVideo.generate_video_offline Scenario.muxer_down
       OfflineAIService.espeak (fun _ _ => 0) Scenario.save
       (Scenario.body "") Scenario.empty_world
     = (Return (Rejected "Script is required" 400), Scenario.empty_world).
Proof.
  apply (empty_script_is_rejected_before_any_stage Scenario.muxer_down true).
  reflexivity.
Defined.

(** The online route on a script of whitespace only: the script passes the
    validation, no audio, no image and no segment is produced for it, and
    the route still answers that the job is completed.  The assembler
    raises for want of files and handles its own exception.  No process
    was started and no file was written, so the video the answer points to
    does not exist unless it did before. *)
Lemma whitespace_script_is_reported_completed
    (E : Env) (client : bool) (data : gmap string (list Z))
    (script : list Z) (w : World) :
  data !! "script"%string = Some script ->
  script <> [] ->
  List.Forall (fun c => isspace c = true) script ->
  generate_video E client (Some data) w
  = (Return (Completed (uuid4 E w)
               ("/api/download-video/" +:+ uuid4 E w)
               "Video generated successfully"),
     MkWorld (files w)
       (Enter Assembly :: Enter ImageGeneration :: Enter AudioGeneration
        :: Enter Segmentation :: trace w)).
Proof.
  intros Hdata Hne Hsp.
  unfold generate_video, try_except, bind, ret. rewrite Hdata.
  cbn [default from_option]. unfold id.
  destruct script as [|c script]; [contradiction|]. cbn [truthy negb].
  unfold process_video_generation, try_except, bind, ret, log.
  rewrite (split_script_into_segments_spaces _ Hsp).
  cbn [enumerate List.length List.seq List.combine
       generate_audio_files generate_image_files].
  rewrite (strip_spaces _ Hsp). cbn [truthy].
  unfold ret. cbn [files trace].
  unfold combine_media_to_video, try_except, raise, ret.
  reflexivity.
Qed.

Example whitespace_script_is_reported_completed_run :
  generate_video Scenario.muxer_down true (Scenario.body " ")
    Scenario.empty_world
  = (Return (Completed "job" "/api/download-video/job"
               "Video generated successfully"),
     MkWorld ∅
       [Enter Assembly; Enter ImageGeneration; Enter AudioGeneration;
        Enter Segmentation]).
Proof.
  apply (whitespace_script_is_reported_completed Scenario.muxer_down true
           {["script"%string := lit " "]} (lit " ") Scenario.empty_world).
  - reflexivity.
  - discriminate.
  - repeat constructor.
Qed.

(** C7, as stated, fails: the offline job below builds the segment of its
    first sentence; the speech of the second sentence cannot be written,
    by the engine or by the synthetic generator, and the route answers a
    failure although a usable segment exists. *)
Lemma offline_job_fails_with_a_usable_segment :
  let run :=
    OfflineVideo.generate_video_offline Scenario.no_speech_for_T
      OfflineAIService.synthetic (fun _ _ => 0) Scenario.save
      (Scenario.body "One. Two") Scenario.empty_world in
  fst run = Return (Rejected "Failed to generate video offline" 500)
  /\ bool_decide
       (is_Some (files (snd run) !! "/tmp/offline_ai/segment_0.mp4"%string))
     = true.
Proof. vm_compute. split; reflexivity. Qed.

(** C7, amended.  The offline job fails, with the error of the route and
    status 500, when its script yields no segment, and also whenever the
    generation of the segments raises, whatever was built before. *)
Theorem offline_job_fails_without_a_final_video
    (E : Env) (tts_engine : OfflineAIService.engine) (beep : Z -> Z -> Z)
    (save_generated_video : list Z -> list Z -> string -> M string)
    (data : gmap string (list Z)) (script : list Z) (w : World) :
  data !! "script"%string = Some script ->
  script <> [] ->
  let route :=
    OfflineVideo.generate_video_offline E tts_engine beep
      save_generated_video (Some data) in
  let voice_id := default (lit "default") (data !! "voice_id"%string) in
  let style := default (lit "business") (data !! "style"%string) in
  (OfflineAIService.split_script script = [] ->
   route w = (Return (Rejected "Failed to generate video offline" 500), w))
  /\ (forall e w1,
        OfflineAIService.generate_segments E tts_engine beep voice_id style
          (enumerate (OfflineAIService.split_script script)) [] w
        = (Raise e, w1) ->
        route w
        = (Return (Rejected "Failed to generate video offline" 500), w1)).
Proof.
  intros Hdata Hne route voice_id style. subst route voice_id style.
  unfold OfflineVideo.generate_video_offline, try_except, bind, ret.
  rewrite Hdata. cbn [default from_option]. unfold id.
  destruct script as [|c script]; [contradiction|]. cbn [truthy negb].
  unfold OfflineAIService.generate_video_offline, try_except, bind, ret.
  split.
  - intros Hnone. rewrite Hnone. reflexivity.
  - intros e w1 Hraise. rewrite Hraise. reflexivity.
Qed.

Lemma offline_job_fails_without_a_final_video_witness :
  OfflineVideo.generate_video_offline Scenario.no_speech_for_T
    OfflineAIService.synthetic (fun _ _ => 0) Scenario.save
    (Scenario.body "...") Scenario.empty_world
  = (Return (Rejected "Failed to generate video offline" 500),
     Scenario.empty_world)
  /\ exists w1,
       OfflineVideo.generate_video_offline Scenario.no_speech_for_T
         OfflineAIService.synthetic (fun _ _ => 0) Scenario.save
         (Scenario.body "Two") Scenario.empty_world
       = (Return (Rejected "Failed to generate video offline" 500), w1).
Proof.
  split.
  - apply (offline_job_fails_without_a_final_video Scenario.no_speech_for_T
             OfflineAIService.synthetic (fun _ _ => 0) Scenario.save
             {["script"%string := lit "..."]} (lit "...")
             Scenario.empty_world); [reflexivity | discriminate | reflexivity].
  - eexists.
    eapply (offline_job_fails_without_a_final_video Scenario.no_speech_for_T
              OfflineAIService.synthetic (fun _ _ => 0) Scenario.save
              {["script"%string := lit "Two"]} (lit "Two")
              Scenario.empty_world);
      [reflexivity | discriminate | vm_compute; reflexivity].
Defined.

End Jobs.

(** ** Assembly *)

Section Assembly.

Import OfflineAIService.

Lemma existing_reads_only (segments : list string) (w : World) :
  exists entries, existing segments w = (Return entries, w).
Proof.
  induction segments as [|segment rest [entries IH]]; simpl.
  - exists []. reflexivity.
  - unfold bind, os_path_exists. rewrite IH. unfold ret.
    eexists. reflexivity.
Qed.

(** C6.  With two segments or more, the offline assembler does not look
    at the exit status of the concatenation: when the muxer fails there,
    it still answers the path of the final video, and the file at that
    path is what it was before the call, not the first segment. *)
Theorem offline_concat_failure_is_not_recovered
    (E : Env) (first second : string) (others : list string)
    (w : World) (returncode : Z) :
  returncode <> 0 ->
  (forall w', can_write E (path_join temp_dir "concat.txt") w' = true) ->
  (forall w', spawn E (FfmpegConcat (path_join temp_dir "concat.txt")
                         (path_join temp_dir "final_video.mp4")) w'
              = Exited returncode) ->
  exists w',
    combine_video_segments E (first :: second :: others) w
    = (Return (Some (path_join temp_dir "final_video.mp4")), w')
    /\ files w' !! path_join temp_dir "final_video.mp4"
       = files w !! path_join temp_dir "final_video.mp4".
Proof.
  intros Hrc Hwrite Hconcat.
  unfold combine_video_segments. cbn [nonempty negb].
  destruct (existing_reads_only (first :: second :: others) w)
    as [entries Hentries].
  unfold bind at 1. rewrite Hentries.
  unfold bind, write_file, subprocess_run, ret.
  rewrite Hwrite, Hconcat.
  destruct (Z.eqb_spec returncode 0) as [?|_]; [contradiction|].
  eexists. split; [reflexivity|]. cbn [files].
  apply lookup_insert_ne. discriminate.
Qed.

Lemma offline_concat_failure_is_not_recovered_witness :
  exists w',
    combine_video_segments Scenario.concat_down
      ["/tmp/offline_ai/segment_0.mp4"; "/tmp/offline_ai/segment_1.mp4"]%string
      Scenario.two_clips
    = (Return (Some (path_join temp_dir "final_video.mp4")), w')
    /\ files w' !! path_join temp_dir "final_video.mp4"
       = files Scenario.two_clips !! path_join temp_dir "final_video.mp4".
Proof.
  apply (offline_concat_failure_is_not_recovered
           Scenario.concat_down _ _ []
           Scenario.two_clips 1).
  - discriminate.
  - intros w'. reflexivity.
  - intros w'. reflexivity.
Defined.

(** There the final video does not exist at all. *)
Example offline_concat_failure_leaves_no_video :
  files Scenario.two_clips !! path_join temp_dir "final_video.mp4" = None.
Proof. vm_compute. reflexivity. Qed.

(** The assembler of video.py, on the same failure, answers the first
    segment. *)
Example online_concat_failure_answers_first_segment :
  let run :=
    Video.combine_media_to_video Scenario.concat_down
      ["a0.wav"; "a1.wav"]%string ["i0.png"; "i1.png"]%string "job"
      Scenario.two_pairs in
  fst run = Return "/tmp/outputs/job.mp4"%string
  /\ files (snd run) !! "/tmp/outputs/job.mp4"%string
     = Some (Clip (Still (Hex 1)) (Silence 5)).
Proof. vm_compute. split; reflexivity. Qed.

End Assembly.

(** * Further properties of the services *)

(** ** Stripping *)

Lemma lstrip_decompose (s : list Z) :
  exists p, s = p ++ lstrip s /\ List.Forall (fun c => isspace c = true) p.
Proof.
  induction s as [|c s [p [Hs Hp]]]; simpl.
  - exists []. split; [reflexivity | constructor].
  - destruct (isspace c) eqn:Hc.
    + exists (c :: p). split; [simpl; congruence | constructor; assumption].
    + exists []. split; [reflexivity | constructor].
Qed.

Lemma lstrip_head (s : list Z) (c : Z) (r : list Z) :
  lstrip s = c :: r -> isspace c = false.
Proof.
  induction s as [|d s IH]; simpl; [discriminate|].
  destruct (isspace d) eqn:Hd; [exact IH|].
  intros H. inversion H. subst. exact Hd.
Qed.

Lemma lstrip_clean (s : list Z) (c : Z) (r : list Z) :
  s = c :: r -> isspace c = false -> lstrip s = s.
Proof. intros -> Hc. simpl. rewrite Hc. reflexivity. Qed.

Lemma rstrip_decompose (s : list Z) :
  exists q, s = rstrip s ++ q /\ List.Forall (fun c => isspace c = true) q.
Proof.
  unfold rstrip.
  destruct (lstrip_decompose (List.rev s)) as [p [Hs Hp]].
  exists (List.rev p). split.
  - rewrite <- List.rev_app_distr, <- Hs, List.rev_involutive. reflexivity.
  - apply List.Forall_rev. exact Hp.
Qed.

Lemma clean_strip (s : list Z) : clean s -> strip s = s.
Proof.
  intros [[c [r [Hs Hc]]] [d [q [Hr Hd]]]].
  unfold strip, rstrip. rewrite (lstrip_clean s c r Hs Hc).
  rewrite (lstrip_clean (List.rev s) d q Hr Hd).
  apply List.rev_involutive.
Qed.

Lemma clean_nonempty (s : list Z) : clean s -> s <> [].
Proof. intros [[c [r [-> _]]] _]. discriminate. Qed.

Lemma strip_clean (s : list Z) : strip s <> [] -> clean (strip s).
Proof.
  unfold strip. intros Hne. split.
  - destruct (rstrip_decompose (lstrip s)) as [q [Hq _]].
    destruct (rstrip (lstrip s)) as [|c r] eqn:Hr; [contradiction|].
    exists c, r. split; [reflexivity|].
    destruct (lstrip s) as [|c' r'] eqn:Hl; [discriminate|].
    simpl in Hq. inversion Hq. subst c'.
    eapply lstrip_head. exact Hl.
  - unfold rstrip in *. rewrite List.rev_involutive.
    destruct (lstrip (List.rev (lstrip s))) as [|c r] eqn:Hl;
      [contradiction Hne; reflexivity|].
    exists c, r. split; [reflexivity|].
    eapply lstrip_head. exact Hl.
Qed.

Lemma strip_sublist (s : list Z) (c : Z) : In c (strip s) -> In c s.
Proof.
  unfold strip. intros Hin.
  destruct (lstrip_decompose s) as [p [Hs _]].
  destruct (rstrip_decompose (lstrip s)) as [q [Hq _]].
  rewrite Hs. apply List.in_or_app. right.
  rewrite Hq. apply List.in_or_app. left. exact Hin.
Qed.

Lemma clean_join (a m b : list Z) : clean a -> clean b -> clean (a ++ m ++ b).
Proof.
  intros [[c [r [-> Hc]]] _] [_ [d [q [Hb Hd]]]]. split.
  - exists c, (r ++ m ++ b). split; [reflexivity | exact Hc].
  - exists d, (q ++ List.rev m ++ List.rev (c :: r)). split; [|exact Hd].
    rewrite !List.rev_app_distr, Hb, <- List.app_assoc. reflexivity.
Qed.

(** ** The sentence splitter of video.py *)

Section OnlineSplitter.

Import Video.

Lemma truthy_nonempty (s : list Z) : truthy s = true <-> s <> [].
Proof. destruct s; simpl; split; congruence. Qed.

Lemma truthy_false (s : list Z) : truthy s = false <-> s = [].
Proof. destruct s; simpl; split; congruence. Qed.

Lemma add_sentence_keeps (all : list (list Z)) (segments : list (list Z))
    (current sentence : list Z) :
  In sentence all ->
  List.Forall (well_formed_segment all) segments ->
  (current = [] \/ well_formed_segment all current) ->
  List.Forall (well_formed_segment all) (fst (add_sentence (segments, current) sentence))
  /\ (snd (add_sentence (segments, current) sentence) = []
      \/ well_formed_segment all (snd (add_sentence (segments, current) sentence))).
Proof.
  intros Hin Hsegs Hcur. unfold add_sentence.
  destruct (truthy (strip sentence)) eqn:Hs; cbn [negb].
  2:{ split; assumption. }
  apply truthy_nonempty in Hs.
  assert (Hnew : well_formed_segment all (strip sentence)).
  { split; [apply strip_clean; exact Hs|]. left.
    apply List.in_map. exact Hin. }
  destruct (truthy current) eqn:Hc.
  - apply truthy_nonempty in Hc.
    destruct Hcur as [?|Hcur]; [contradiction|].
    destruct (len current + len (strip sentence) >? 200) eqn:Hlen;
      cbn [andb fst snd].
    + split; [|right; exact Hnew].
      apply List.Forall_app. split; [exact Hsegs|].
      constructor; [|constructor].
      rewrite (clean_strip _ (proj1 Hcur)). exact Hcur.
    + split; [exact Hsegs|]. right. split.
      * apply clean_join; [exact (proj1 Hcur) | exact (proj1 Hnew)].
      * right. unfold len in *. rewrite !List.length_app.
        change (List.length (lit ". ")) with 2%nat.
        rewrite Z.gtb_ltb in Hlen. apply Z.ltb_ge in Hlen. lia.
  - rewrite andb_false_r. cbn [fst snd]. split; [exact Hsegs|].
    right. exact Hnew.
Qed.

Lemma add_sentence_fills (state : list (list Z) * list Z) (sentence : list Z) :
  (strip sentence <> [] \/ snd state <> []) ->
  snd (add_sentence state sentence) <> [].
Proof.
  destruct state as [segments current]. unfold add_sentence. cbn [snd].
  destruct (truthy (strip sentence)) eqn:Hs; cbn [negb].
  - apply truthy_nonempty in Hs. intros _.
    destruct ((len current + len (strip sentence) >? 200) && truthy current);
      cbn [snd]; [exact Hs|].
    destruct (truthy current) eqn:Hc; cbn [snd]; [|exact Hs].
    apply truthy_nonempty in Hc. destruct current; [contradiction|discriminate].
  - apply truthy_false in Hs. intros [?|?]; [contradiction|assumption].
Qed.

Lemma fold_add_sentence_keeps (all : list (list Z)) (sentences : list (list Z)) :
  forall segments current,
  List.incl sentences all ->
  List.Forall (well_formed_segment all) segments ->
  (current = [] \/ well_formed_segment all current) ->
  List.Forall (well_formed_segment all)
    (fst (List.fold_left add_sentence sentences (segments, current)))
  /\ (snd (List.fold_left add_sentence sentences (segments, current)) = []
      \/ well_formed_segment all
           (snd (List.fold_left add_sentence sentences (segments, current)))).
Proof.
  induction sentences as [|x sentences IH]; intros segments current Hincl Hsegs Hcur.
  - simpl. split; assumption.
  - cbn [List.fold_left].
    destruct (add_sentence_keeps all segments current x) as [H1 H2];
      [apply Hincl; left; reflexivity | assumption | assumption |].
    destruct (add_sentence (segments, current) x) as [segments' current'].
    apply IH; [|exact H1|exact H2].
    intros y Hy. apply Hincl. right. exact Hy.
Qed.

Lemma fold_add_sentence_fills (sentences : list (list Z)) :
  forall state,
  (List.Exists (fun s => strip s <> []) sentences \/ snd state <> []) ->
  snd (List.fold_left add_sentence sentences state) <> [].
Proof.
  induction sentences as [|x sentences IH]; intros state H.
  - simpl. destruct H as [H|H]; [inversion H | exact H].
  - cbn [List.fold_left]. apply IH.
    destruct H as [H|H].
    + inversion H as [? ? Hx|? ? Hrest]; subst.
      * right. apply add_sentence_fills. left. exact Hx.
      * left. exact Hrest.
    + right. apply add_sentence_fills. right. exact H.
Qed.

Lemma fold_add_sentence_blank (sentences : list (list Z)) :
  forall state,
  List.Forall (fun s => strip s = []) sentences ->
  List.fold_left add_sentence sentences state = state.
Proof.
  induction sentences as [|x sentences IH]; intros state H; [reflexivity|].
  inversion H as [|? ? Hx Hrest]; subst. cbn [List.fold_left].
  destruct state as [segments current]. unfold add_sentence at 2.
  rewrite Hx. cbn [truthy negb]. apply IH. exact Hrest.
Qed.

(** X1.  The splitter of video.py never answers an empty list.  When no
    sentence of the script has a non-whitespace character, it answers the
    script itself; otherwise every segment is clean (not empty, no
    whitespace at either end) and is either a single stripped sentence or at
    most 202 characters long. *)
Theorem split_script_into_segments_shape (script : list Z) :
  let sentences := re_split_terminators script [] false in
  split_script_into_segments script <> []
  /\ (List.Forall (fun s => strip s = []) sentences ->
      split_script_into_segments script = [script])
  /\ (List.Exists (fun s => strip s <> []) sentences ->
      List.Forall (well_formed_segment sentences)
        (split_script_into_segments script)).
Proof.
  intros sentences. split; [|split].
  - unfold split_script_into_segments.
    destruct (List.fold_left _ _ _) as [segments current_segment].
    destruct (truthy (strip current_segment));
      [destruct segments | destruct segments]; simpl; discriminate.
  - intros Hblank. unfold split_script_into_segments. fold sentences.
    rewrite (fold_add_sentence_blank sentences _ Hblank). reflexivity.
  - intros Hsome. unfold split_script_into_segments. fold sentences.
    destruct (fold_add_sentence_keeps sentences sentences [] [])
      as [Hsegs Hcur];
      [intros x Hx; exact Hx | constructor | left; reflexivity |].
    pose proof (fold_add_sentence_fills sentences ([], []) (or_introl Hsome))
      as Hfull.
    destruct (List.fold_left add_sentence sentences ([], []))
      as [segments current_segment].
    cbn [fst snd] in *.
    destruct Hcur as [?|Hcur]; [contradiction|].
    rewrite (clean_strip _ (proj1 Hcur)).
    apply truthy_nonempty in Hfull. rewrite Hfull.
    assert (Hall : List.Forall (well_formed_segment sentences)
                     (segments ++ [current_segment])).
    { apply List.Forall_app. split; [exact Hsegs|].
      constructor; [exact Hcur | constructor]. }
    destruct (segments ++ [current_segment]) eqn:Happ.
    + destruct segments; discriminate.
    + cbn [nonempty negb]. exact Hall.
Qed.

Lemma split_script_into_segments_shape_witness :
  split_script_into_segments (lit " .. ") = [lit " .. "]
  /\ List.Forall
       (well_formed_segment
          (re_split_terminators (lit "Hi there. How are you?") [] false))
       (split_script_into_segments (lit "Hi there. How are you?")).
Proof.
  split.
  - apply (split_script_into_segments_shape (lit " .. ")).
    repeat constructor.
  - apply (split_script_into_segments_shape (lit "Hi there. How are you?")).
    apply List.Exists_cons_hd. discriminate.
Defined.

End OnlineSplitter.

(** ** The sentence splitter of the offline service *)

Section OfflineSplitter.

Import OfflineAIService.

Lemma re_split_pieces (s : list Z) : forall cur in_run,
  List.Forall (fun c => is_terminator c = false) cur ->
  List.Forall (List.Forall (fun c => is_terminator c = false))
    (re_split_terminators s cur in_run).
Proof.
  induction s as [|c s IH]; intros cur in_run Hcur; simpl.
  - constructor; [|constructor]. apply List.Forall_rev. exact Hcur.
  - destruct (is_terminator c) eqn:Hc.
    + destruct in_run.
      * apply IH. exact Hcur.
      * constructor; [apply List.Forall_rev; exact Hcur|].
        apply IH. constructor.
    + apply IH. constructor; assumption.
Qed.

(** X2.  Every segment of the offline splitter is clean and holds none of
    the characters '.', '!' and '?'; the splitter answers no segment
    exactly when no sentence of the script has a non-whitespace
    character. *)
Theorem split_script_segments_are_clean (script : list Z) :
  List.Forall
    (fun segment =>
       clean segment
       /\ List.Forall (fun c => is_terminator c = false) segment)
    (split_script script)
  /\ (split_script script = []
      <-> List.Forall (fun s => strip s = [])
            (re_split_terminators script [] false)).
Proof.
  unfold split_script.
  pose proof (re_split_pieces script [] false (List.Forall_nil _)) as Hpieces.
  induction (re_split_terminators script [] false) as [|s sentences IH].
  - split; [constructor|]. split; [constructor | reflexivity].
  - inversion Hpieces as [|? ? Hs Hrest]; subst.
    destruct (IH Hrest) as [IH1 IH2]. cbn [List.filter].
    destruct (truthy (strip s)) eqn:Ht.
    + apply truthy_nonempty in Ht. cbn [List.map]. split.
      * constructor; [|exact IH1]. split; [apply strip_clean; exact Ht|].
        apply List.Forall_forall. intros c Hc.
        apply strip_sublist in Hc.
        exact (proj1 (List.Forall_forall _ _) Hs c Hc).
      * split; [discriminate|]. intros H. inversion H. contradiction.
    + apply truthy_false in Ht. split; [exact IH1|].
      rewrite IH2. split.
      * intros H. constructor; assumption.
      * intros H. inversion H. assumption.
Qed.

End OfflineSplitter.

(** ** The scene parser of the advanced generator *)

Section SceneParser.

Import AdvancedVideoGeneration.

(** X3.  [_parse_script_into_scenes] never raises.  When the completion
    answers an object, its ['scenes'] entry is returned as it is, empty or
    not, and an object without that entry gives one scene holding the whole
    script.  When the completion fails, every scene of the fallback has a
    clean visual description, and its text is that description followed by
    a full stop. *)
Theorem parse_script_into_scenes_cases (E : Env) (script : list Z) (w : World) :
  exists scenes,
    _parse_script_into_scenes E script w
    = (Return scenes,
       MkWorld (files w) (ChatCompletion script :: trace w))
    /\ match chat_completion E script w with
       | Some (Some answered) => scenes = answered
       | Some None => scenes = [Scene script script]
       | None =>
           List.Forall
             (fun s =>
                clean (visual_description s)
                /\ text s = visual_description s ++ lit ".")
             scenes
       end.
Proof.
  unfold _parse_script_into_scenes, try_except, bind, remote, ret.
  destruct (chat_completion E script w) as [[answered|]|].
  - eexists. split; reflexivity.
  - eexists. split; reflexivity.
  - eexists. split; [reflexivity|].
    induction (split_dot_space script []) as [|s sentences IH]; [constructor|].
    cbn [List.filter]. destruct (truthy (strip s)) eqn:Ht; [|exact IH].
    cbn [List.map]. constructor; [|exact IH]. cbn [text visual_description].
    split; [|reflexivity]. apply strip_clean. apply truthy_nonempty. exact Ht.
Qed.

End SceneParser.

(** ** More on language detection and validation *)

Section DetectionFacts.

Import Dzongkha.

Lemma ratio_above_half (m t : Z) :
  0 < t -> ((1 # 2 < inject_Z m / inject_Z t)%Q <-> t < 2 * m).
Proof.
  intros Ht.
  assert (HtQ : (0 < inject_Z t)%Q) by (rewrite <- (Zlt_Qlt 0); exact Ht).
  split.
  - intros H. apply (Qmult_lt_compat_r _ _ (inject_Z t) HtQ) in H.
    unfold Qdiv in H.
    rewrite <- Qmult_assoc, (Qmult_comm (/ inject_Z t)), Qmult_inv_r,
      Qmult_1_r in H by (intros E; rewrite E in HtQ; inversion HtQ).
    unfold Qlt, inject_Z in H. simpl in H. lia.
  - intros H. apply Qlt_shift_div_l; [exact HtQ|].
    unfold Qlt, inject_Z. simpl. lia.
Qed.

(** X4.  A text is labelled "dz", and validated, exactly when strictly more
    than half of its non-whitespace characters lie in the Tibetan block; a
    text with exactly half of them there is labelled "other". *)
Theorem dzongkha_label_is_strict_majority (text : list Z) :
  (language (detect_language text) = "dz"%string
   <-> Spec.total text < 2 * Spec.matched text)
  /\ (is_valid (validate_dzongkha_text text) = true
      <-> Spec.total text < 2 * Spec.matched text)
  /\ (Spec.total text <> 0 ->
      Spec.total text = 2 * Spec.matched text ->
      language (detect_language text) = "other"%string).
Proof.
  assert (Hlabel : language (detect_language text) = "dz"%string
                   <-> Spec.total text < 2 * Spec.matched text).
  { rewrite (detect_language_refines text). unfold Spec.detect.
    pose proof (matched_le_total text) as Hle.
    destruct (Z.eqb_spec (Spec.total text) 0) as [Hz|Hnz]; simpl.
    - split; [discriminate | lia].
    - assert (Hpos : 0 < Spec.total text) by lia.
      pose proof (ratio_above_half (Spec.matched text) _ Hpos) as Hr.
      fold (Spec.match_ratio text) in Hr.
      destruct (Qlt_le_dec (1 # 2) (Spec.match_ratio text)) as [Hgt|Hle'];
        simpl.
      + split; [intros _; apply Hr; exact Hgt | reflexivity].
      + split; [discriminate|]. intros H. apply Hr in H.
        exfalso. apply (Qlt_not_le _ _ H). exact Hle'. }
  split; [exact Hlabel|]. split.
  - rewrite <- Hlabel. unfold validate_dzongkha_text. cbn [is_valid].
    destruct (String.eqb_spec (language (detect_language text)) "dz");
      split; congruence.
  - intros Hnz Hhalf.
    rewrite (detect_language_refines text). unfold Spec.detect.
    destruct (Z.eqb_spec (Spec.total text) 0) as [?|_]; [contradiction|].
    assert (Hpos : 0 < Spec.total text).
    { pose proof (matched_le_total text). lia. }
    pose proof (ratio_above_half (Spec.matched text) _ Hpos) as Hr.
    fold (Spec.match_ratio text) in Hr.
    destruct (Qlt_le_dec (1 # 2) (Spec.match_ratio text)) as [Hgt|_];
      [|reflexivity].
    apply Hr in Hgt. lia.
Qed.

Lemma dzongkha_label_is_strict_majority_witness :
  language (detect_language [0x0F40; 0x61]) = "other"%string.
Proof.
  apply (dzongkha_label_is_strict_majority [0x0F40; 0x61]).
  - vm_compute. discriminate.
  - reflexivity.
Defined.

Lemma counts_permutation (t1 t2 : list Z) :
  Permutation t1 t2 ->
  Spec.matched t1 = Spec.matched t2 /\ Spec.total t1 = Spec.total t2.
Proof.
  unfold Spec.matched, Spec.total.
  induction 1 as [|c l l' _ [IH1 IH2]|c d l|l l' l'' _ [IH1 IH2] _ [IH3 IH4]];
    cbn [List.filter].
  - split; reflexivity.
  - destruct (Spec.in_script_range c), (isspace c); cbn [negb List.length];
      split; lia.
  - destruct (Spec.in_script_range c), (Spec.in_script_range d),
      (isspace c), (isspace d); cbn [negb List.length]; split; reflexivity.
  - split; congruence.
Qed.

Lemma counts_without_spaces (text : list Z) :
  Spec.matched (List.filter (fun c => negb (isspace c)) text)
  = Spec.matched text
  /\ Spec.total (List.filter (fun c => negb (isspace c)) text)
     = Spec.total text.
Proof.
  unfold Spec.matched, Spec.total.
  induction text as [|c text [IH1 IH2]]; [split; reflexivity|].
  cbn [List.filter].
  destruct (isspace c) eqn:Hs; cbn [negb List.filter].
  - destruct (Spec.in_script_range c) eqn:Hr.
    + apply in_script_range_not_space in Hr. congruence.
    + split; assumption.
  - rewrite Hs. cbn [negb List.length].
    destruct (Spec.in_script_range c); cbn [List.length]; split; lia.
Qed.

(** X5.  The detection depends on the characters of a text only through
    how many there are of each kind: rearranging the characters, or
    removing the whitespace, changes neither the label nor the
    confidence. *)
Theorem detect_language_ignores_order_and_whitespace (t1 t2 : list Z) :
  Permutation (List.filter (fun c => negb (isspace c)) t1)
              (List.filter (fun c => negb (isspace c)) t2) ->
  detect_language t1 = detect_language t2.
Proof.
  intros Hperm. rewrite !detect_language_refines.
  destruct (counts_permutation _ _ Hperm) as [Hm Ht].
  destruct (counts_without_spaces t1) as [Hm1 Ht1].
  destruct (counts_without_spaces t2) as [Hm2 Ht2].
  unfold Spec.detect, Spec.match_ratio.
  replace (Spec.matched t1) with (Spec.matched t2) by congruence.
  replace (Spec.total t1) with (Spec.total t2) by congruence.
  reflexivity.
Qed.

Lemma detect_language_ignores_order_and_whitespace_witness :
  detect_language [0x0F40; 0x20; 0x61; 0x0F0B]
  = detect_language [0x61; 0x0F0B; 0x0A; 0x0F40].
Proof.
  apply detect_language_ignores_order_and_whitespace.
  cbn. apply perm_trans with [0x61; 0x0F40; 0x0F0B].
  - apply perm_swap.
  - apply perm_skip. apply perm_swap.
Defined.

Lemma split_whitespace_count (s : list Z) : forall cur,
  let open := match cur with [] => 0 | _ => 1 end in
  Z.of_nat (List.length (split_whitespace s cur)) <= Spec.total s + open
  /\ (0 < Spec.total s + open ->
      0 < Z.of_nat (List.length (split_whitespace s cur))).
Proof.
  unfold Spec.total.
  induction s as [|c s IH]; intros cur; cbn [split_whitespace List.filter].
  - destruct cur; cbn [List.length]; lia.
  - destruct (isspace c) eqn:Hc; cbn [negb].
    + destruct cur as [|d cur].
      * exact (IH []).
      * pose proof (IH []) as [IH1 IH2]. cbn [List.length] in *. lia.
    + pose proof (IH (c :: cur)) as [IH1 IH2]. cbn [List.length] in *.
      destruct cur; lia.
Qed.

(** X6.  The word estimate of a validated text is at most its number of
    non-whitespace characters, which is at most its character count, and it
    is zero exactly when the text has no non-whitespace character. *)
Theorem word_estimate_bounds (text : list Z) :
  0 <= word_estimate (validate_dzongkha_text text) <= Spec.total text
  /\ Spec.total text <= character_count (validate_dzongkha_text text)
  /\ (word_estimate (validate_dzongkha_text text) = 0
      <-> Spec.total text = 0).
Proof.
  unfold validate_dzongkha_text. cbn [word_estimate character_count].
  assert (Hlen : 0 <= Spec.total text <= len text).
  { unfold Spec.total, len. split; [lia|]. apply inj_le.
    apply List.filter_length_le. }
  destruct text as [|c text]; cbn [truthy].
  - unfold Spec.total, len in *. cbn in *. lia.
  - pose proof (split_whitespace_count (c :: text) []) as [H1 H2].
    cbn zeta in H1, H2. lia.
Qed.

End DetectionFacts.

(** ** More on the synthetic tone generator *)

Section ToneFacts.

Import Dzongkha.

(** X7.  The frequency of a tone lies between 180 and 329 Hz for every code
    point.  The characters of the Tibetan block, and only they, are played
    as high tones, between 230 and 329 Hz; every other character is played
    as a low tone between 180 and 209 Hz. *)
Theorem tone_frequency_bands (char_code : Z) :
  let '(freq, tone) := tone_of char_code in
  if Spec.in_script_range char_code
  then tone = high /\ 230 <= freq <= 329
  else tone = low /\ 180 <= freq <= 209.
Proof.
  unfold tone_of, Spec.in_script_range, base_freq.
  pose proof (Z.mod_pos_bound char_code 100 ltac:(lia)).
  pose proof (Z.mod_pos_bound char_code 30 ltac:(lia)).
  destruct (Z.leb_spec 0x0F00 char_code), (Z.leb_spec char_code 0x0FFF);
    cbn [andb]; try (split; [reflexivity | lia]);
    destruct (Z.leb_spec 0x0F40 char_code), (Z.leb_spec char_code 0x0F6C);
    cbn [andb]; try (split; [reflexivity | lia]); lia.
Qed.

Variable amplitude : Z -> tone_type -> Z -> Z.

(** X8.  When the output file can be written, the synthetic generator
    returns its path and leaves there a wave at 22050 frames per second with
    3307 frames for each non-whitespace character and 2205 frames for each
    whitespace character of the text, so between 2205 and 3307 frames per
    character; an empty text gives a wave without frames.  When the file
    cannot be written the call raises and no file is changed. *)
Theorem synthetic_speech_wave (E : Env) (text : list Z) (output_path : string)
    (w : World) :
  let frames_of_text := synthetic_frames amplitude text in
  (if can_write E output_path w
   then generate_synthetic_dzongkha_speech amplitude E text output_path w
        = (Return output_path,
           MkWorld (<[output_path := Pcm (Wave 22050 frames_of_text)]> (files w))
             (trace w))
   else generate_synthetic_dzongkha_speech amplitude E text output_path w
        = (Raise (OSError output_path), w))
  /\ Z.of_nat (List.length frames_of_text)
     = 3307 * Spec.total text + 2205 * (len text - Spec.total text)
  /\ 2205 * len text <= Z.of_nat (List.length frames_of_text) <= 3307 * len text.
Proof.
  intros frames_of_text. split.
  - unfold generate_synthetic_dzongkha_speech, bind, write_file, ret.
    destruct (can_write E output_path w); reflexivity.
  - pose proof (synthetic_frames_length amplitude text) as Hlen.
    unfold samples_per_tone, samples_per_silence in Hlen.
    split; [exact Hlen|]. subst frames_of_text. rewrite Hlen.
    assert (0 <= Spec.total text <= len text).
    { unfold Spec.total, len. split; [lia|]. apply inj_le.
      apply List.filter_length_le. }
    lia.
Qed.

End ToneFacts.

(** ** The prompt of the image generator *)

Section Prompts.

Import ImageGeneration.

(** X9.  The enhanced prompt is the first 1000 characters of the prompt
    followed by the modifier of the style and the aspect ratio, so it is
    never longer than 1000 characters; for a prompt of 1000 characters or
    more it is the first 1000 characters of the prompt alone, whatever the
    style. *)
Theorem enhance_prompt_is_truncated (text_prompt : list Z) (style : string) :
  let modifier := default "high quality, detailed"%string
                    (style_modifiers !! style) in
  _enhance_prompt text_prompt style
  = List.firstn 1000
      (text_prompt ++ lit ", " ++ lit modifier ++ lit ", 16:9 aspect ratio")
  /\ len (_enhance_prompt text_prompt style) <= 1000
  /\ (1000 <= len text_prompt ->
      _enhance_prompt text_prompt style = List.firstn 1000 text_prompt).
Proof.
  intros modifier. unfold _enhance_prompt. fold modifier.
  set (full := text_prompt ++ lit ", " ++ lit modifier
               ++ lit ", 16:9 aspect ratio").
  assert (Heq : (if len full >? 1000 then List.firstn 1000 full else full)
                = List.firstn 1000 full).
  { destruct (len full >? 1000) eqn:Hlen; [reflexivity|].
    rewrite Z.gtb_ltb in Hlen. apply Z.ltb_ge in Hlen.
    symmetry. apply List.firstn_all2. unfold len in Hlen. lia. }
  rewrite Heq. split; [reflexivity|]. split.
  - unfold len. pose proof (List.firstn_le_length 1000 full). lia.
  - intros Hlong. unfold full. rewrite List.firstn_app.
    replace (1000 - List.length text_prompt)%nat with 0%nat
      by (unfold len in Hlong; lia).
    cbn [List.firstn]. apply List.app_nil_r.
Qed.

Lemma enhance_prompt_is_truncated_witness :
  _enhance_prompt (List.repeat 0x61 1200) "cartoon"
  = List.firstn 1000 (List.repeat 0x61 1200).
Proof.
  apply (enhance_prompt_is_truncated (List.repeat 0x61 1200) "cartoon").
  vm_compute. discriminate.
Defined.

End Prompts.

(** ** The file-type test of the upload route *)

Section Uploads.

Import VideoUploads.

Variable lower : list Z -> list Z.

Lemma rsplit_from_end_last (e r : list Z) : forall after,
  has_dot e = false ->
  rsplit_from_end (e ++ [0x2E] ++ r) after = [List.rev r; List.rev e ++ after].
Proof.
  unfold has_dot.
  induction e as [|c e IH]; intros after H; simpl in *.
  - reflexivity.
  - apply orb_false_iff in H. destruct H as [Hc Hrest]. rewrite Hc.
    rewrite (IH _ Hrest). rewrite <- List.app_assoc. reflexivity.
Qed.

Lemma has_dot_rev (a : list Z) : has_dot (List.rev a) = has_dot a.
Proof.
  unfold has_dot. induction a as [|c a IH]; [reflexivity|].
  simpl. rewrite List.existsb_app, IH. simpl.
  rewrite orb_false_r. apply orb_comm.
Qed.

(** X10.  A file name without a dot is never allowed.  For a name with a
    dot the answer depends only on the text after the last dot: the name is
    allowed exactly when that text, in lower case, is one of the seven
    extensions, whatever stands before it. *)
Theorem allowed_file_reads_last_extension (filename name extension : list Z) :
  (has_dot filename = false -> allowed_file lower filename = false)
  /\ (has_dot extension = false ->
      allowed_file lower (name ++ [0x2E] ++ extension)
      = bool_decide (lower extension ∈ ALLOWED_EXTENSIONS)).
Proof.
  split.
  - intros H. unfold allowed_file. rewrite H. reflexivity.
  - intros H. unfold allowed_file, rsplit_dot.
    assert (Hdot : has_dot (name ++ [0x2E] ++ extension) = true).
    { unfold has_dot. rewrite !List.existsb_app. cbn.
      apply orb_true_r. }
    rewrite Hdot. cbn [andb].
    rewrite !List.rev_app_distr. cbn [List.rev List.app].
    rewrite <- List.app_assoc.
    rewrite (rsplit_from_end_last (List.rev extension) (List.rev name) [])
      by (rewrite has_dot_rev; exact H).
    rewrite !List.rev_involutive, List.app_nil_r. reflexivity.
Qed.

End Uploads.

Lemma allowed_file_reads_last_extension_witness :
  VideoUploads.allowed_file (fun s => s) (lit "voice") = false
  /\ VideoUploads.allowed_file (fun s => s) (lit "my.voice" ++ [0x2E] ++ lit "wav")
     = true.
Proof.
  split.
  - apply (allowed_file_reads_last_extension (fun s => s) (lit "voice") [] []).
    reflexivity.
  - rewrite (proj2 (allowed_file_reads_last_extension (fun s => s) []
                      (lit "my.voice") (lit "wav"))) by reflexivity.
    reflexivity.
Defined.

(** ** Speech of the voice service *)

Ltac split_cases :=
  repeat
    (cbn [fst snd trace files effect] in *;
     first
       [ match goal with
         | |- context [Z.eqb ?a ?b] => destruct (Z.eqb_spec a b); subst
         end
       | match goal with
         | |- context [match ?x with _ => _ end] =>
             match type of x with
             | option _ => destruct x eqn:?
             | spawned => destruct x eqn:?
             | bool => destruct x eqn:?
             | prod _ _ => is_var x; destruct x
             end
         end ]);
  cbn [fst snd trace files effect] in *.

Section SpeechFacts.

Import VoiceCloning.



End SpeechFacts.

(** ** Images *)

Section ImageFacts.

Import ImageGeneration.

Lemma fallback_image_effect
    (E : Env) (text_prompt : list Z) (output_path : string) (w : World) :
  exists added,
    trace (snd (_generate_fallback_image E text_prompt output_path w))
    = added
      ++ Spawn (FfmpegStill (Hex (py_hash E text_prompt mod 16777215))
                  output_path)
      :: trace w
    /\ (files (snd (_generate_fallback_image E text_prompt output_path w))
          !! output_path
        = files w !! output_path
        \/ exists colour,
             files (snd (_generate_fallback_image E text_prompt output_path w))
               !! output_path
             = Some (Still colour))
    /\ forall path,
         path <> output_path ->
         files (snd (_generate_fallback_image E text_prompt output_path w))
           !! path
         = files w !! path.
Proof.
  unfold _generate_fallback_image, try_except, bind, subprocess_run, ret.
  repeat (split_cases; cbn [fst snd trace files effect]);
    solve [ (exists [] + eexists [_]);
            (split; [reflexivity|]);
            (split;
             [ first [ left; reflexivity
                     | right; eexists; apply lookup_insert_eq ]
             | intros path Hpath;
               first [ reflexivity
                     | apply lookup_insert_ne; congruence ] ]) ].
Qed.

(** X12.  When the remote generator answers, the download comes back with
    status 200 and the output path can be written, the body is written to
    the output path exactly as it was received, an empty body included,
    and no local render is started.  With any other status, and with
    status 200 when the output path cannot be written, nothing of the body
    is stored: the local render of the hash colour is started, the output
    path afterwards holds what it held before or a rendered frame, and no
    other file is changed. *)
Theorem downloaded_image_is_stored_unchecked
    (E : Env) (text_prompt : list Z) (output_path style url : string)
    (status_code : Z) (body : list Z) (w : World) :
  let prompt := _enhance_prompt text_prompt style in
  let asked := MkWorld (files w) (ImagesGenerate prompt :: trace w) in
  let fetched := MkWorld (files w) (HttpGet url :: trace asked) in
  let run := generate_image_from_text E text_prompt output_path style w in
  images_generate E prompt w = Some url ->
  requests_get E url asked = Some (status_code, body) ->
  (status_code = 200 -> can_write E output_path fetched = true ->
   run
   = (Return output_path,
      MkWorld (<[output_path := Bytes body]> (files w)) (trace fetched)))
  /\ (status_code <> 200 \/ can_write E output_path fetched = false ->
      exists added,
        trace (snd run)
        = added
          ++ Spawn (FfmpegStill (Hex (py_hash E text_prompt mod 16777215))
                      output_path)
          :: trace fetched
        /\ (files (snd run) !! output_path = files w !! output_path
            \/ exists colour,
                 files (snd run) !! output_path = Some (Still colour))
        /\ forall path,
             path <> output_path ->
             files (snd run) !! path = files w !! path).
Proof.
  intros prompt asked fetched run Hgen Hget.
  assert (Hlocal :
            status_code <> 200 \/ can_write E output_path fetched = false ->
            run = _generate_fallback_image E text_prompt output_path fetched).
  { intros Hcase. subst run prompt asked fetched. cbn [files trace] in *.
    unfold generate_image_from_text, generate_with_dalle, try_except, bind,
      remote, write_file, raise, ret.
    rewrite Hgen. cbn [files trace]. rewrite Hget. cbn [files trace].
    destruct (Z.eqb_spec status_code 200) as [Hok|Hbad]; [|reflexivity].
    destruct Hcase as [Hstatus|Hwrite]; [contradiction|].
    rewrite Hwrite. reflexivity. }
  split.
  - intros -> Hwrite. subst run prompt asked fetched. cbn [files trace] in *.
    unfold generate_image_from_text, generate_with_dalle, try_except, bind,
      remote, write_file, ret.
    rewrite Hgen. cbn [files trace]. rewrite Hget. cbn [files trace].
    cbn [Z.eqb Pos.eqb]. rewrite Hwrite. reflexivity.
  - intros Hcase. rewrite (Hlocal Hcase).
    exact (fallback_image_effect E text_prompt output_path fetched).
Qed.

Lemma downloaded_image_is_stored_unchecked_witness :
  let E :=
    MkEnv (fun _ _ => Exited 0) (fun _ _ => true)
      (fun _ _ => Some "https://images.example/1.png"%string)
      (fun _ _ => Some (200, []))
      (fun _ _ _ => None) (fun _ _ _ => None) (fun _ _ => None)
      (fun _ => 0) (fun _ => false) (fun c => [c]) (fun _ => ""%string)
      (fun _ => "job"%string) in
  let E' :=
    MkEnv (fun _ _ => Exited 0) (fun _ _ => false)
      (fun _ _ => Some "https://images.example/1.png"%string)
      (fun _ _ => Some (200, [137; 80; 78; 71]))
      (fun _ _ _ => None) (fun _ _ _ => None) (fun _ _ => None)
      (fun _ => 0) (fun _ => false) (fun c => [c]) (fun _ => ""%string)
      (fun _ => "job"%string) in
  (fst (generate_image_from_text E (lit "a river") "out.png" "realistic"
          Scenario.empty_world)
   = Return "out.png"%string
   /\ files (snd (generate_image_from_text E (lit "a river") "out.png"
                    "realistic" Scenario.empty_world)) !! "out.png"%string
      = Some (Bytes []))
  /\ exists added,
       trace (snd (generate_image_from_text E' (lit "a river") "out.png"
                     "realistic" Scenario.empty_world))
       = added
         ++ [Spawn (FfmpegStill (Hex 0) "out.png");
             HttpGet "https://images.example/1.png";
             ImagesGenerate (_enhance_prompt (lit "a river") "realistic")].
Proof.
  intros E E'. split.
  - rewrite (proj1 (downloaded_image_is_stored_unchecked E (lit "a river")
                      "out.png" "realistic" "https://images.example/1.png"
                      200 [] Scenario.empty_world eq_refl eq_refl)
               eq_refl eq_refl).
    split; reflexivity.
  - destruct (proj2 (downloaded_image_is_stored_unchecked E' (lit "a river")
                       "out.png" "realistic" "https://images.example/1.png"
                       200 [137; 80; 78; 71] Scenario.empty_world
                       eq_refl eq_refl)
                (or_intror eq_refl))
      as (added & Htrace & _).
    exists added. exact Htrace.
Defined.

(** Whatever the remote generator does, the call returns when the black
    render works, and the output file is there. *)
Lemma generate_image_returns
    (E : Env) (text_prompt : list Z) (output_path style : string) (w : World) :
  (forall w', spawn E (FfmpegStill (Named "black") output_path) w' = Exited 0) ->
  exists w',
    generate_image_from_text E text_prompt output_path style w
    = (Return output_path, w')
    /\ is_Some (files w' !! output_path).
Proof.
  intros Hblack.
  unfold generate_image_from_text, generate_with_dalle, try_except, bind,
    remote, write_file, raise, _generate_fallback_image, try_except, bind,
    subprocess_run, ret.
  repeat (split_cases; cbn [fst snd trace files effect]);
    try match goal with
        | H : spawn _ (FfmpegStill (Named _) _) _ = _ |- _ =>
            rewrite Hblack in H; inversion H; congruence
        end;
    (eexists; split; [reflexivity|]; cbn [files];
     rewrite lookup_insert_eq; eexists; reflexivity).
Qed.

Lemma fallback_image_returns
    (E : Env) (text_prompt : list Z) (output_path : string) (w : World) :
  (forall w', spawn E (FfmpegStill (Named "black") output_path) w' = Exited 0) ->
  exists w',
    _generate_fallback_image E text_prompt output_path w
    = (Return output_path, w')
    /\ is_Some (files w' !! output_path).
Proof.
  intros Hblack.
  unfold _generate_fallback_image, try_except, bind, subprocess_run, ret.
  repeat (split_cases; cbn [fst snd trace files effect]);
    try match goal with
        | H : spawn _ (FfmpegStill (Named _) _) _ = _ |- _ =>
            rewrite Hblack in H; inversion H; congruence
        end;
    (eexists; split; [reflexivity|]; cbn [files];
     rewrite lookup_insert_eq; eexists; reflexivity).
Qed.

End ImageFacts.

Section ImageBatchFacts.

Import ImageBatches.

Lemma generate_images_paths (E : Env) (output_dir style : string)
    (segments : list (nat * list Z)) :
  (forall out w', spawn E (FfmpegStill (Named "black") out) w' = Exited 0) ->
  forall image_paths w,
  exists w',
    generate_images E output_dir style segments image_paths w
    = (Return
         (image_paths
          ++ List.map
               (fun s => path_join output_dir
                           ("image_" +:+ format_03d (fst s) +:+ ".png"))
               segments),
       w').
Proof.
  intros Hblack.
  induction segments as [|[i segment] segments IH]; intros image_paths w.
  - exists w. cbn. rewrite List.app_nil_r. reflexivity.
  - cbn [generate_images List.map fst]. unfold bind, try_except.
    destruct (generate_image_returns E segment
                (path_join output_dir ("image_" +:+ format_03d i +:+ ".png"))
                style w (Hblack _)) as [w1 [Hrun _]].
    rewrite Hrun.
    destruct (IH (image_paths
                  ++ [path_join output_dir
                        ("image_" +:+ format_03d i +:+ ".png")]) w1)
      as [w2 Hrest].
    exists w2. rewrite Hrest. rewrite <- List.app_assoc. reflexivity.
Qed.

Lemma map_fst_enumerate {A} (f : nat -> string) (l : list A) :
  forall start,
  List.map (fun s : nat * A => f (fst s))
    (List.combine (List.seq start (List.length l)) l)
  = List.map f (List.seq start (List.length l)).
Proof.
  induction l as [|a l IH]; intros start; [reflexivity|].
  cbn. rewrite IH. reflexivity.
Qed.

(** X13.  When the black last-resort render succeeds whenever it is asked
    for, [generate_multiple_images] never raises and answers one path per
    segment, in order: image_000.png, image_001.png and so on in the output
    directory; [create_video_thumbnail] likewise answers its output path,
    where a file then is. *)
Theorem generate_multiple_images_one_per_segment
    (E : Env) (text_segments : list (list Z)) (output_dir style : string)
    (title_text : list Z) (output_path : string) (w : World) :
  (forall out w', spawn E (FfmpegStill (Named "black") out) w' = Exited 0) ->
  (exists w',
      generate_multiple_images E text_segments output_dir style w
      = (Return
           (List.map
              (fun i => path_join output_dir
                          ("image_" +:+ format_03d i +:+ ".png"))
              (List.seq 0 (List.length text_segments))),
         w'))
  /\ (exists w',
         create_video_thumbnail E title_text output_path w
         = (Return output_path, w')
         /\ is_Some (files w' !! output_path)).
Proof.
  intros Hblack. split.
  - unfold generate_multiple_images, enumerate.
    destruct (generate_images_paths E output_dir style
                (List.combine (List.seq 0 (List.length text_segments))
                   text_segments) Hblack [] w) as [w' Hrun].
    exists w'. rewrite Hrun. cbn [List.app].
    rewrite (map_fst_enumerate
               (fun i => path_join output_dir
                           ("image_" +:+ format_03d i +:+ ".png"))).
    reflexivity.
  - unfold create_video_thumbnail, try_except.
    destruct (generate_image_returns E
                (lit "Video thumbnail for: " ++ title_text
                 ++ lit ", professional, eye-catching, YouTube style thumbnail")
                output_path "cinematic" w (Hblack _)) as [w' [Hrun Hfile]].
    exists w'. rewrite Hrun. split; [reflexivity | exact Hfile].
Qed.

Lemma generate_multiple_images_one_per_segment_witness :
  fst (generate_multiple_images Scenario.black_only
         [lit "One"; lit "Two"] "/tmp/images" "realistic"
         Scenario.empty_world)
  = Return ["/tmp/images/image_000.png"; "/tmp/images/image_001.png"]%string.
Proof.
  destruct (proj1 (generate_multiple_images_one_per_segment
                     Scenario.black_only [lit "One"; lit "Two"]
                     "/tmp/images" "realistic" [] "t.png"
                     Scenario.empty_world (fun _ _ => eq_refl)))
    as [w' Hrun].
  rewrite Hrun. reflexivity.
Defined.

End ImageBatchFacts.

(** ** The assembler of video.py *)

Section OnlineAssembly.

Import Video.

Lemma subprocess_run_unchecked (E : Env) (c : cmd) (w : World) :
  spawn E c w <> NotStarted ->
  exists returncode w',
    subprocess_run E false c w = (Return returncode, w')
    /\ trace w' = Spawn c :: trace w.
Proof.
  intros Hstart. unfold subprocess_run.
  destruct (spawn E c w) as [rc|]; [|contradiction].
  destruct (if rc =? 0 then effect c (files w) else None);
    eexists _, _; split; reflexivity.
Qed.

Lemma build_segments_returns (E : Env) (job_id : string)
    (pairs : list (nat * (string * string))) :
  (forall c w', spawn E c w' <> NotStarted) ->
  forall segment_videos w,
  exists built w',
    build_segments E job_id pairs segment_videos w = (Return built, w').
Proof.
  intros Hstart.
  induction pairs as [|[i [audio_file image_file]] pairs IH];
    intros segment_videos w; cbn [build_segments].
  - eexists _, _. reflexivity.
  - unfold bind, os_path_exists.
    destruct (bool_decide (is_Some (files w !! audio_file))
              && bool_decide (is_Some (files w !! image_file))).
    + destruct (subprocess_run_unchecked E
                  (FfmpegSegment image_file audio_file (segment_path job_id i))
                  w (Hstart _ _)) as [rc [w1 [Hrun _]]].
      rewrite Hrun. destruct (negb (rc =? 0)); apply IH.
    + apply IH.
Qed.

Lemma remove_segments_effect (segment_videos : list string) : forall w,
  exists w',
    remove_segments segment_videos w = (Return tt, w')
    /\ trace w' = trace w
    /\ (forall path, ~ In path segment_videos ->
        files w' !! path = files w !! path)
    /\ (forall path, In path segment_videos -> files w' !! path = None).
Proof.
  induction segment_videos as [|segment rest IH]; intros w;
    cbn [remove_segments].
  - exists w. split; [reflexivity|]. split; [reflexivity|].
    split; [reflexivity|]. intros path [].
  - unfold bind, try_except, os_remove, ret.
    destruct (files w !! segment) as [c|] eqn:Hseg.
    + destruct (IH (MkWorld (delete segment (files w)) (trace w)))
        as [w' [Hrun [Htrace [Hkeep Hgone]]]].
      exists w'. rewrite Hrun. cbn [files trace] in *.
      split; [reflexivity|]. split; [exact Htrace|]. split.
      * intros path Hnot.
        rewrite Hkeep by (intros H; apply Hnot; right; exact H).
        apply lookup_delete_ne. intros ->. apply Hnot. left. reflexivity.
      * intros path [<-|Hin]; [|apply Hgone; exact Hin].
        destruct (List.in_dec string_dec segment rest) as [Hin|Hnot].
        -- apply Hgone. exact Hin.
        -- rewrite Hkeep by exact Hnot. apply lookup_delete_eq.
    + destruct (IH w) as [w' [Hrun [Htrace [Hkeep Hgone]]]].
      exists w'. rewrite Hrun.
      split; [reflexivity|]. split; [exact Htrace|]. split.
      * intros path Hnot. apply Hkeep. intros H. apply Hnot. right. exact H.
      * intros path [<-|Hin]; [|apply Hgone; exact Hin].
        destruct (List.in_dec string_dec segment rest) as [Hin|Hnot].
        -- apply Hgone. exact Hin.
        -- rewrite Hkeep by exact Hnot. exact Hseg.
Qed.

(** X14.  As long as child processes can be started, the assembler of
    video.py never raises: for every list of audio and image files,
    whatever exists on disk and whatever the exit codes of the muxer and of
    cp, it answers the path of the job's video. *)
Theorem combine_media_to_video_never_raises
    (E : Env) (audio_files image_files : list string) (job_id : string)
    (w : World) :
  (forall c w', spawn E c w' <> NotStarted) ->
  exists w',
    combine_media_to_video E audio_files image_files job_id w
    = (Return (path_join OUTPUT_FOLDER (job_id +:+ ".mp4")), w').
Proof.
  intros Hstart. unfold combine_media_to_video.
  set (video_path := path_join OUTPUT_FOLDER (job_id +:+ ".mp4")).
  assert (Hhandler : forall (e : exn) w1,
             exists w2,
               (match audio_files, image_files with
                | audio0 :: _, image0 :: _ =>
                    subprocess_run E false
                      (FfmpegSegment image0 audio0 video_path);;
                    ret video_path
                | _, _ => ret video_path
                end) w1 = (Return video_path, w2)).
  { intros _ w1. destruct audio_files as [|audio0 ?];
      [eexists; reflexivity|].
    destruct image_files as [|image0 ?]; [eexists; reflexivity|].
    unfold bind.
    destruct (subprocess_run_unchecked E
                (FfmpegSegment image0 audio0 video_path) w1 (Hstart _ _))
      as [rc [w2 [Hrun _]]].
    rewrite Hrun. eexists. reflexivity. }
  unfold try_except.
  match goal with
  | |- context [match ?body w with _ => _ end] =>
      destruct (body w) as [[path|e] w1] eqn:Hbody
  end.
  2:{ apply Hhandler; exact e. }
  exists w1. f_equal. f_equal.
  destruct (negb (nonempty audio_files) || negb (nonempty image_files));
    [discriminate Hbody|].
  unfold bind in Hbody.
  destruct (build_segments E job_id _ [] w) as [[built|e] w2];
    [|discriminate Hbody].
  destruct built as [|first others]; [discriminate Hbody|].
  match type of Hbody with
  | (let (r, w') := ?m w2 in _) = _ =>
      destruct (m w2) as [[[]|e] w3]; [|discriminate Hbody]
  end.
  destruct (remove_segments (first :: others) w3) as [[[]|e] w4];
    [|discriminate Hbody].
  unfold ret in Hbody. inversion Hbody. reflexivity.
Qed.

Lemma combine_media_to_video_never_raises_witness :
  exists w',
    combine_media_to_video Scenario.muxer_down ["a0.wav"; "a1.wav"]%string
      ["i0.png"; "i1.png"]%string "job" Scenario.two_pairs
    = (Return "/tmp/outputs/job.mp4"%string, w').
Proof.
  apply (combine_media_to_video_never_raises Scenario.muxer_down).
  intros c w'. discriminate.
Defined.

Lemma append_cancel (s a b : string) : s +:+ a = s +:+ b -> a = b.
Proof.
  induction s as [|c s IH]; simpl; [auto|].
  intros H. injection H as H. apply IH. exact H.
Qed.

Lemma path_join_same_start (dir start a b : string) :
  startswith_sep a = false ->
  startswith_sep b = false ->
  path_join dir (start +:+ a) = path_join dir (start +:+ b) ->
  a = b.
Proof.
  intros Ha Hb. unfold path_join.
  assert (Hstart : startswith_sep (start +:+ a) = startswith_sep (start +:+ b)).
  { destruct start; [|reflexivity].
    change (startswith_sep a = startswith_sep b). congruence. }
  rewrite Hstart.
  destruct (startswith_sep (start +:+ b));
    [|destruct (match dir with EmptyString => true | String _ _ => false end
                || endswith_sep dir)];
    intros H; repeat apply append_cancel in H; exact H.
Qed.

Lemma segment_path_not_video (job_id : string) (i : nat) :
  segment_path job_id i <> path_join OUTPUT_FOLDER (job_id +:+ ".mp4").
Proof.
  unfold segment_path. intros H.
  apply path_join_same_start in H; [discriminate H | reflexivity..].
Qed.

Lemma segment_path_not_concat (job_id : string) (i : nat) :
  segment_path job_id i <> path_join OUTPUT_FOLDER (job_id +:+ "_concat.txt").
Proof.
  unfold segment_path. intros H.
  apply path_join_same_start in H; [discriminate H | reflexivity..].
Qed.

Lemma build_segments_paths (E : Env) (job_id : string)
    (pairs : list (nat * (string * string))) :
  forall segment_videos w built w',
  build_segments E job_id pairs segment_videos w = (Return built, w') ->
  List.Forall (fun path => exists i, path = segment_path job_id i)
    segment_videos ->
  List.Forall (fun path => exists i, path = segment_path job_id i) built.
Proof.
  induction pairs as [|[i [audio_file image_file]] pairs IH];
    intros segment_videos w built w' Hrun Hinit; cbn [build_segments] in Hrun.
  - inversion Hrun. subst. exact Hinit.
  - unfold bind, os_path_exists in Hrun.
    destruct (bool_decide (is_Some (files w !! audio_file))
              && bool_decide (is_Some (files w !! image_file))).
    + destruct (subprocess_run E false _ w) as [[rc|e] w1];
        [|discriminate Hrun].
      destruct (negb (rc =? 0)).
      * eapply IH; [exact Hrun | exact Hinit].
      * eapply IH; [exact Hrun|].
        apply List.Forall_app. split; [exact Hinit|].
        constructor; [eexists; reflexivity | constructor].
    + eapply IH; [exact Hrun | exact Hinit].
Qed.

(** X15.  When two or more segments were built and the concatenation exits
    with a non-zero status, the assembler of video.py copies the first
    built segment: if cp succeeds, the job's video holds exactly what that
    segment held, and the file of that segment is removed. *)
Theorem online_concat_failure_keeps_first_segment
    (E : Env) (audio_files image_files : list string) (job_id : string)
    (w w1 : World) (first second : string) (others : list string)
    (c : content) (returncode : Z) :
  let video_path := path_join OUTPUT_FOLDER (job_id +:+ ".mp4") in
  let concat_file := path_join OUTPUT_FOLDER (job_id +:+ "_concat.txt") in
  audio_files <> [] -> image_files <> [] ->
  build_segments E job_id (enumerate (List.combine audio_files image_files))
    [] w
  = (Return (first :: second :: others), w1) ->
  files w1 !! first = Some c ->
  (forall w', can_write E concat_file w' = true) ->
  returncode <> 0 ->
  (forall w', spawn E (FfmpegConcat concat_file video_path) w'
              = Exited returncode) ->
  (forall w', spawn E (Cp first video_path) w' = Exited 0) ->
  exists w2,
    combine_media_to_video E audio_files image_files job_id w
    = (Return video_path, w2)
    /\ files w2 !! video_path = Some c
    /\ files w2 !! first = None.
Proof.
  intros video_path concat_file Haudio Himage Hbuild Hfirst Hwrite Hrc
    Hconcat Hcp.
  pose proof (build_segments_paths E job_id _ _ _ _ _ Hbuild
                (List.Forall_nil _)) as Hpaths.
  assert (Hvideo : ~ In video_path (first :: second :: others)).
  { intros Hin.
    destruct (proj1 (List.Forall_forall _ _) Hpaths _ Hin) as [i Hi].
    symmetry in Hi. exact (segment_path_not_video job_id i Hi). }
  assert (Hnc : concat_file <> first).
  { inversion Hpaths as [|? ? [i Hi] _]; subst.
    intros H. exact (segment_path_not_concat job_id i (eq_sym H)). }
  unfold combine_media_to_video. fold video_path concat_file.
  destruct audio_files as [|audio0 audio_files]; [contradiction|].
  destruct image_files as [|image0 image_files]; [contradiction|].
  cbn [nonempty negb orb]. unfold try_except, bind at 1. rewrite Hbuild.
  cbn [List.length Nat.eqb].
  unfold bind, write_file, subprocess_run, ret.
  rewrite Hwrite. cbn [files trace]. rewrite Hconcat.
  destruct (Z.eqb_spec returncode 0) as [?|_]; [contradiction|].
  destruct (Z.eqb_spec returncode 0) as [?|_]; [contradiction|].
  cbn [negb files trace]. rewrite Hcp. cbn [Z.eqb effect].
  rewrite lookup_insert_ne by exact Hnc. rewrite Hfirst.
  match goal with
  | |- context [remove_segments ?l ?w3] =>
      destruct (remove_segments_effect l w3)
        as [w4 [Hrun [_ [Hkeep Hgone]]]]
  end.
  rewrite Hrun. exists w4. split; [reflexivity|]. split.
  - rewrite (Hkeep _ Hvideo). cbn [files]. apply lookup_insert_eq.
  - apply Hgone. left. reflexivity.
Qed.

Lemma online_concat_failure_keeps_first_segment_witness :
  exists w2,
    combine_media_to_video Scenario.concat_down ["a0.wav"; "a1.wav"]%string
      ["i0.png"; "i1.png"]%string "job" Scenario.two_pairs
    = (Return "/tmp/outputs/job.mp4"%string, w2)
    /\ files w2 !! "/tmp/outputs/job.mp4"%string
       = Some (Clip (Still (Hex 1)) (Silence 5))
    /\ files w2 !! "/tmp/outputs/job_segment_0.mp4"%string = None.
Proof.
  eapply (online_concat_failure_keeps_first_segment Scenario.concat_down
            ["a0.wav"; "a1.wav"]%string ["i0.png"; "i1.png"]%string "job"
            Scenario.two_pairs _ "/tmp/outputs/job_segment_0.mp4"
            "/tmp/outputs/job_segment_1.mp4" []
            (Clip (Still (Hex 1)) (Silence 5)) 1).
  - discriminate.
  - discriminate.
  - vm_compute. reflexivity.
  - vm_compute. reflexivity.
  - intros w'. reflexivity.
  - discriminate.
  - intros w'. reflexivity.
  - intros w'. reflexivity.
Defined.

End OnlineAssembly.

(** ** The offline speech *)

Section OfflineSpeech.

Import OfflineAIService.

Variable E : Env.
Variable beep : Z -> Z -> Z.

Lemma beep_frames_single (text : list Z) :
  List.Forall (singly_cased E) text ->
  forall frames w,
  exists added,
    beep_frames E beep text frames w = (Return (frames ++ added), w)
    /\ Z.of_nat (List.length added)
       = 2205 * letters E text + 1102 * (len text - letters E text).
Proof.
  unfold letters, len.
  induction 1 as [|c text Hc _ IH]; intros frames w; cbn [beep_frames].
  - exists []. rewrite List.app_nil_r. split; reflexivity.
  - cbn [List.filter]. destruct (py_isalpha E c) eqn:Halpha.
    + destruct (Hc Halpha) as [lowered Hlow]. rewrite Hlow.
      destruct (IH (frames ++ List.map
                      (beep (200 + (ord lowered - ord 97) * 20))
                      (seqZ 0 2205)) w) as [added [Hrun Hlen]].
      eexists. rewrite Hrun, <- List.app_assoc. split; [reflexivity|].
      rewrite List.length_app, List.length_map, length_seqZ.
      cbn [List.length]. lia.
    + destruct (IH (frames ++ List.map (fun _ => 0) (seqZ 0 1102)) w)
        as [added [Hrun Hlen]].
      eexists. rewrite Hrun, <- List.app_assoc. split; [reflexivity|].
      rewrite List.length_app, List.length_map, length_seqZ.
      cbn [List.length]. lia.
Qed.

Lemma beep_frames_multiple (text : list Z) :
  List.Exists (multiply_cased E) text ->
  forall frames w,
  beep_frames E beep text frames w
  = (Raise (TypeError "ord() expected a character"), w).
Proof.
  induction text as [|c text IH]; intros Hex frames w;
    [inversion Hex|]. cbn [beep_frames].
  destruct (py_isalpha E c) eqn:Halpha.
  - destruct (py_lower E c) as [|lowered [|? ?]] eqn:Hlow; try reflexivity.
    inversion Hex as [? ? [_ Hbad]|? ? Hrest]; subst.
    + exfalso. exact (Hbad lowered Hlow).
    + apply IH. exact Hrest.
  - inversion Hex as [? ? [Hbad _]|? ? Hrest]; subst; [congruence|].
    apply IH. exact Hrest.
Qed.

Lemma synthetic_speech_raises (text : list Z) (output_path : string)
    (w : World) :
  List.Exists (multiply_cased E) text ->
  generate_synthetic_speech E beep text output_path w
  = (Raise (TypeError "ord() expected a character"), w).
Proof.
  intros Hex. unfold generate_synthetic_speech, bind.
  rewrite (beep_frames_multiple text Hex). reflexivity.
Qed.

Lemma synthetic_speech_writes (text : list Z) (output_path : string)
    (w : World) :
  List.Forall (singly_cased E) text ->
  can_write E output_path w = true ->
  exists frames,
    generate_synthetic_speech E beep text output_path w
    = (Return output_path,
       MkWorld (<[output_path := Pcm (Wave 22050 frames)]> (files w))
         (trace w))
    /\ Z.of_nat (List.length frames)
       = 2205 * letters E text + 1102 * (len text - letters E text).
Proof.
  intros Hall Hwrite. unfold generate_synthetic_speech, bind, write_file, ret.
  destruct (beep_frames_single text Hall [] w) as [added [Hrun Hlen]].
  rewrite Hrun, Hwrite. exists added. split; [reflexivity | exact Hlen].
Qed.

(** X16.  The synthetic speech of the offline service raises a TypeError,
    and writes nothing, for every text that holds a letter whose lower-case
    form is not a single character.  For a text without such a letter,
    when the output file can be written, it leaves a wave at 22050 frames
    per second with 2205 frames per letter and 1102 frames per other
    character. *)
Theorem offline_synthetic_speech_cases (text : list Z) (output_path : string)
    (w : World) :
  (List.Exists (multiply_cased E) text ->
   generate_synthetic_speech E beep text output_path w
   = (Raise (TypeError "ord() expected a character"), w))
  /\ (List.Forall (singly_cased E) text ->
      can_write E output_path w = true ->
      exists frames,
        generate_synthetic_speech E beep text output_path w
        = (Return output_path,
           MkWorld (<[output_path := Pcm (Wave 22050 frames)]> (files w))
             (trace w))
        /\ Z.of_nat (List.length frames)
           = 2205 * letters E text + 1102 * (len text - letters E text)).
Proof.
  split.
  - apply synthetic_speech_raises.
  - apply synthetic_speech_writes.
Qed.

(** X17.  For a text whose letters all have a single-character lower case,
    offline speech never fails on its engine: whichever engine is set and
    however espeak or festival end, the call answers its output path, and a
    file is there, as long as that path can be written.  With the synthetic
    engine a text that holds a letter of another kind makes the call
    raise. *)
Theorem offline_speech_survives_engine_failure
    (tts_engine : engine) (text voice_id : list Z) (w : World) :
  let output_path :=
    path_join temp_dir ("speech_" +:+ pretty (py_hash E text) +:+ ".wav") in
  (List.Forall (singly_cased E) text ->
   (forall w', can_write E output_path w' = true) ->
   exists w',
     generate_speech_offline E tts_engine beep text voice_id w
     = (Return output_path, w')
     /\ is_Some (files w' !! output_path))
  /\ (List.Exists (multiply_cased E) text ->
      tts_engine = synthetic ->
      generate_speech_offline E tts_engine beep text voice_id w
      = (Raise (TypeError "ord() expected a character"), w)).
Proof.
  intros output_path. split.
  - intros Hall Hwrite.
    assert (Hsyn : forall w1,
               exists w2,
                 generate_synthetic_speech E beep text output_path w1
                 = (Return output_path, w2)
                 /\ is_Some (files w2 !! output_path)).
    { intros w1.
      destruct (synthetic_speech_writes text output_path w1 Hall (Hwrite w1))
        as [frames [Hrun _]].
      eexists. split; [exact Hrun|]. cbn [files].
      rewrite lookup_insert_eq. eexists. reflexivity. }
    unfold generate_speech_offline. fold output_path. unfold try_except.
    destruct tts_engine.
    + unfold generate_espeak_speech, bind, subprocess_run, ret.
      destruct (spawn E _ w) as [rc|]; [|apply Hsyn].
      destruct (Z.eqb_spec rc 0); [|apply Hsyn].
      cbn [effect]. eexists. split; [reflexivity|]. cbn [files].
      rewrite lookup_insert_eq. eexists. reflexivity.
    + unfold generate_festival_speech, bind, write_file.
      destruct (can_write E _ w); [|apply Hsyn].
      unfold subprocess_run. cbn [files trace].
      destruct (spawn E _ _) as [rc|]; [|apply Hsyn].
      destruct (Z.eqb_spec rc 0); [|apply Hsyn].
      cbn [effect]. rewrite lookup_insert_eq. unfold ret.
      eexists. split; [reflexivity|]. cbn [files].
      rewrite lookup_insert_eq. eexists. reflexivity.
    + unfold bind. destruct (Hsyn w) as [w2 [Hrun Hfile]].
      rewrite Hrun. unfold ret. exists w2. split; [reflexivity | exact Hfile].
  - intros Hex ->. unfold generate_speech_offline, try_except, bind.
    fold output_path.
    rewrite (synthetic_speech_raises text output_path w Hex).
    apply synthetic_speech_raises. exact Hex.
Qed.

End OfflineSpeech.

Lemma offline_synthetic_speech_cases_witness :
  let E :=
    MkEnv (fun _ _ => Exited 0) (fun _ _ => true)
      (fun _ _ => None) (fun _ _ => None) (fun _ _ _ => None)
      (fun _ _ _ => None) (fun _ _ => None) (fun _ => 0)
      (fun c => c =? 0x130) (fun c => if c =? 0x130 then [0x69; 0x307] else [c])
      (fun _ => ""%string) (fun _ => "job"%string) in
  OfflineAIService.generate_synthetic_speech E (fun _ _ => 0) [0x130] "s.wav"
    Scenario.empty_world
  = (Raise (TypeError "ord() expected a character"), Scenario.empty_world)
  /\ exists frames,
       OfflineAIService.generate_synthetic_speech Scenario.muxer_down
         (fun _ _ => 0) (lit "Hi!") "s.wav" Scenario.empty_world
       = (Return "s.wav"%string,
          MkWorld (<["s.wav"%string := Pcm (Wave 22050 frames)]> ∅) [])
       /\ Z.of_nat (List.length frames) = 2205 * 2 + 1102 * (3 - 2).
Proof.
  intros E. split.
  - apply (proj1 (offline_synthetic_speech_cases E (fun _ _ => 0) [0x130]
                    "s.wav" Scenario.empty_world)).
    apply List.Exists_cons_hd. split; [reflexivity|].
    intros lowered H. discriminate H.
  - apply (proj2 (offline_synthetic_speech_cases Scenario.muxer_down
                    (fun _ _ => 0) (lit "Hi!") "s.wav" Scenario.empty_world)).
    + repeat constructor; intros _; eexists; reflexivity.
    + reflexivity.
Defined.

Lemma offline_speech_survives_engine_failure_witness :
  (exists w',
      OfflineAIService.generate_speech_offline Scenario.muxer_down
        OfflineAIService.espeak (fun _ _ => 0) (lit "Hi!") (lit "default")
        Scenario.empty_world
      = (Return "/tmp/offline_ai/speech_72.wav"%string, w')
      /\ is_Some (files w' !! "/tmp/offline_ai/speech_72.wav"%string))
  /\ let E :=
       MkEnv (fun _ _ => Exited 0) (fun _ _ => true)
         (fun _ _ => None) (fun _ _ => None) (fun _ _ _ => None)
         (fun _ _ _ => None) (fun _ _ => None) (fun _ => 0)
         (fun c => c =? 0x130)
         (fun c => if c =? 0x130 then [0x69; 0x307] else [c])
         (fun _ => ""%string) (fun _ => "job"%string) in
     OfflineAIService.generate_speech_offline E OfflineAIService.synthetic
       (fun _ _ => 0) [0x130] (lit "default") Scenario.empty_world
     = (Raise (TypeError "ord() expected a character"), Scenario.empty_world).
Proof.
  split.
  - apply (proj1 (offline_speech_survives_engine_failure Scenario.muxer_down
                    (fun _ _ => 0) OfflineAIService.espeak (lit "Hi!")
                    (lit "default") Scenario.empty_world)).
    + repeat constructor; intros _; eexists; reflexivity.
    + intros w'. reflexivity.
  - intros E.
    apply (proj2 (offline_speech_survives_engine_failure E (fun _ _ => 0)
                    OfflineAIService.synthetic [0x130] (lit "default")
                    Scenario.empty_world)).
    + apply List.Exists_cons_hd. split; [reflexivity|].
      intros lowered H. discriminate H.
    + reflexivity.
Defined.

(** ** Dzongkha speech and translation *)

Section DzongkhaSpeechFacts.

Import DzongkhaSpeech.

Variable E : Env.
Variable amplitude : Z -> Dzongkha.tone_type -> Z -> Z.
Variable vits_waveform : list Z -> World -> option (list Z).

(** X18.  Whatever the state of the service, the loaded model and espeak
    do, [text_to_speech_dzongkha] answers its output path and a file is
    there, as long as that path can be written: every failure ends in the
    synthetic generator.  When no model is in use and the engine is not
    espeak, the file is exactly the synthetic wave of the text. *)
Theorem dzongkha_speech_cascade (self : service) (text : list Z) (w : World) :
  let output_path :=
    path_join temp_dir
      ("dzongkha_tts_" +:+ pretty (py_hash E text) +:+ ".wav") in
  (forall w', can_write E output_path w' = true) ->
  exists w',
    text_to_speech_dzongkha E self amplitude vits_waveform text w
    = (Return output_path, w')
    /\ is_Some (files w' !! output_path)
    /\ (has_tts_model self && tts_available self = false ->
        tts_engine self <> Some espeak ->
        files w' !! output_path
        = Some (Pcm (Wave 22050 (Dzongkha.synthetic_frames amplitude text)))).
Proof.
  intros output_path Hwrite.
  unfold text_to_speech_dzongkha. fold output_path.
  destruct self as [model available engine_set translating].
  cbn [has_tts_model tts_available tts_engine].
  unfold generate_tts_with_model, generate_tts_fallback,
    Dzongkha.generate_synthetic_dzongkha_speech, try_except, bind,
    write_file, subprocess_run, raise, ret.
  cbn [tts_engine].
  destruct (model && available) eqn:Hmodel;
    destruct engine_set as [[|]|];
    repeat (split_cases; cbn [fst snd trace files effect]);
    repeat rewrite Hwrite in *; try discriminate;
    try (repeat (split_cases; cbn [fst snd trace files effect]);
         repeat rewrite Hwrite in *);
    try discriminate;
    (eexists; split; [reflexivity|]; cbn [files]; split;
     [ rewrite lookup_insert_eq; eexists; reflexivity
     | intros Hno Hengine; first [ discriminate Hno
                                 | contradiction Hengine; reflexivity
                                 | apply lookup_insert_eq ] ]).
Qed.

(** X19.  A translation never raises and changes nothing, always has
    confidence 0, always carries an error note, and its text is the text
    that was to be translated, untranslated.  When the model is marked
    unavailable, as the service marks it when it starts, the text stands
    behind the bracketed note
    "[Translation from <source> to <target> not available] ", and the
    answer names both languages; when the model is marked available the
    text stands alone and the answer names no language, for the method
    that would translate does not exist. *)
Theorem translation_is_a_marked_pass_through
    (self : service) (text source target : list Z) (w : World) :
  exists answer,
    translate_text self text source target w = (Return answer, w)
    /\ (t_confidence answer == 0)%Q
    /\ error answer <> ""%string
    /\ translated_text answer
       = (if translation_available self
          then []
          else lit "[Translation from " ++ source ++ lit " to " ++ target
               ++ lit " not available] ")
         ++ text
    /\ source_lang answer
       = (if translation_available self then None else Some source)
    /\ target_lang answer
       = (if translation_available self then None else Some target).
Proof.
  unfold translate_text, try_except, raise, ret.
  destruct (translation_available self).
  - eexists. repeat split; try reflexivity. discriminate.
  - eexists. unfold translate_fallback.
    cbn [translated_text t_confidence error source_lang target_lang].
    split; [reflexivity|]. split; [reflexivity|].
    split; [discriminate|].
    split; [rewrite <- !List.app_assoc; reflexivity|].
    split; reflexivity.
Qed.

End DzongkhaSpeechFacts.

Lemma dzongkha_speech_cascade_witness :
  exists w',
    DzongkhaSpeech.text_to_speech_dzongkha Scenario.muxer_down
      (DzongkhaSpeech.Service true true None false) (fun _ _ _ => 0) (fun _ _ => None)
      [0x0F40] Scenario.empty_world
    = (Return "/tmp/dzongkha_service/dzongkha_tts_3904.wav"%string, w')
    /\ is_Some (files w' !! "/tmp/dzongkha_service/dzongkha_tts_3904.wav"%string).
Proof.
  destruct (dzongkha_speech_cascade Scenario.muxer_down (fun _ _ _ => 0)
              (fun _ _ => None) (DzongkhaSpeech.Service true true None false) [0x0F40]
              Scenario.empty_world (fun _ => eq_refl))
    as [w' [Hrun [Hfile _]]].
  exists w'. split; [exact Hrun | exact Hfile].
Defined.

Section DzongkhaRouteFacts.

Import DzongkhaRoutes.

Variable E : Env.
Variable self : DzongkhaSpeech.service.
Variable amplitude : Z -> Dzongkha.tone_type -> Z -> Z.
Variable vits_waveform : list Z -> World -> option (list Z).

Lemma confidence_of_text_with_characters (text : list Z) :
  Spec.total text <> 0 ->
  (1 # 2 <= Dzongkha.confidence (Dzongkha.detect_language text))%Q.
Proof.
  intros Hnz. rewrite (detect_language_refines text). unfold Spec.detect.
  destruct (Z.eqb_spec (Spec.total text) 0) as [?|_]; [contradiction|].
  pose proof (match_ratio_bounds text Hnz) as [Hlo Hhi].
  destruct (Qlt_le_dec (1 # 2) (Spec.match_ratio text)); simpl; lra.
Qed.

(** X20.  The script check of the Dzongkha text-to-speech route refuses a
    text exactly when it is made of whitespace only.  A text with any
    non-whitespace character, Dzongkha or not, passes the check: the speech
    is generated and the route answers from its outcome. *)
Theorem dzongkha_gate_refuses_only_blank_text
    (data : gmap string (list Z)) (text : list Z) (w : World) :
  data !! "text"%string = Some text ->
  text <> [] ->
  (List.Forall (fun c => isspace c = true) text ->
   dzongkha_text_to_speech E self amplitude vits_waveform (Some data) w
   = (Return (RefusedAs "Text does not appear to be in Dzongkha script"
                (Dzongkha.validate_dzongkha_text text) 400), w))
  /\ ((exists c, In c text /\ isspace c = false) ->
      dzongkha_text_to_speech E self amplitude vits_waveform (Some data) w
      = match DzongkhaSpeech.text_to_speech_dzongkha E self amplitude
                vits_waveform text w with
        | (Return audio_path, w') =>
            if bool_decide (is_Some (files w' !! audio_path))
            then (Return (SentFile audio_path
                            ("dzongkha_speech_" +:+ pretty (py_hash E text)
                             +:+ ".wav")), w')
            else (Return (Refused "Failed to generate speech" 500), w')
        | (Raise e, w') => (Return (Crashed e 500), w')
        end).
Proof.
  intros Hdata Hne.
  unfold dzongkha_text_to_speech, try_except, bind, ret.
  rewrite Hdata. cbn [default from_option]. unfold id.
  rewrite (proj2 (truthy_nonempty text) Hne). cbn [negb].
  unfold Dzongkha.validate_dzongkha_text.
  cbn [Dzongkha.is_valid Dzongkha.v_confidence].
  split.
  - intros Hblank.
    assert (Htotal : Spec.total text = 0).
    { unfold Spec.total. clear Hdata Hne.
      induction Hblank as [|c t Hc _ IH]; [reflexivity|].
      cbn [List.filter]. rewrite Hc. exact IH. }
    rewrite (detect_language_refines text). unfold Spec.detect.
    rewrite Htotal. reflexivity.
  - intros Hsome. apply total_pos_iff in Hsome.
    assert (Hnz : Spec.total text <> 0) by lia.
    pose proof (confidence_of_text_with_characters text Hnz) as Hconf.
    destruct (Qlt_le_dec (Dzongkha.confidence (Dzongkha.detect_language text))
                (3 # 10)) as [Hlow|_]; [exfalso; lra|].
    rewrite andb_false_r.
    destruct (DzongkhaSpeech.text_to_speech_dzongkha E self amplitude
                vits_waveform text w) as [[audio_path|e] w'];
      [|reflexivity].
    unfold os_path_exists.
    destruct (bool_decide (is_Some (files w' !! audio_path))); reflexivity.
Qed.

End DzongkhaRouteFacts.

Lemma dzongkha_gate_refuses_only_blank_text_witness :
  DzongkhaRoutes.dzongkha_text_to_speech Scenario.muxer_down
    (DzongkhaSpeech.Service false true (Some DzongkhaSpeech.synthetic) false)
    (fun _ _ _ => 0) (fun _ _ => None)
    (Some {["text"%string := lit "  "]}) Scenario.empty_world
  = (Return (DzongkhaRoutes.RefusedAs
               "Text does not appear to be in Dzongkha script"
               (Dzongkha.validate_dzongkha_text (lit "  ")) 400),
     Scenario.empty_world)
  /\ fst (DzongkhaRoutes.dzongkha_text_to_speech Scenario.muxer_down
            (DzongkhaSpeech.Service false true
               (Some DzongkhaSpeech.synthetic) false)
            (fun _ _ _ => 0) (fun _ _ => None)
            (Some {["text"%string := lit "hi"]}) Scenario.empty_world)
     = Return (DzongkhaRoutes.SentFile
                 "/tmp/dzongkha_service/dzongkha_tts_104.wav"
                 "dzongkha_speech_104.wav").
Proof.
  split.
  - apply (dzongkha_gate_refuses_only_blank_text Scenario.muxer_down
             (DzongkhaSpeech.Service false true
                (Some DzongkhaSpeech.synthetic) false)
             (fun _ _ _ => 0) (fun _ _ => None)
             {["text"%string := lit "  "]} (lit "  ") Scenario.empty_world);
      [reflexivity | discriminate | repeat constructor].
  - assert (Hdata : ({["text"%string := lit "hi"]} : gmap string (list Z))
                    !! "text"%string = Some (lit "hi")) by reflexivity.
    assert (Hne : lit "hi" <> []) by discriminate.
    rewrite (proj2 (dzongkha_gate_refuses_only_blank_text Scenario.muxer_down
                      (DzongkhaSpeech.Service false true
                         (Some DzongkhaSpeech.synthetic) false)
                      (fun _ _ _ => 0) (fun _ _ => None)
                      {["text"%string := lit "hi"]} (lit "hi")
                      Scenario.empty_world Hdata Hne));
      [vm_compute; reflexivity|].
    exists 104. split; [left; reflexivity | reflexivity].
Defined.

(** ** Cloned voices *)

Section VoiceSampleFacts.

Import VoiceSamples.

Variable E : Env.
Variable elevenlabs_clone : list Z -> string -> World -> option (list Z).
Variable json_dump : voice_metadata -> list Z.

Lemma startswith_app (prefix rest : list Z) :
  startswith (prefix ++ rest) prefix = true.
Proof.
  induction prefix as [|c prefix IH]; [destruct rest; reflexivity|].
  cbn. rewrite Z.eqb_refl. exact IH.
Qed.

Lemma fallback_speech_skips_elevenlabs (client : bool)
    (text voice : list Z) (output_path : string) (w : World) :
  startswith voice (lit "fallback_") = true ->
  exists added,
    trace (snd (VoiceCloning.generate_speech E client text voice output_path w))
    = added ++ trace w
    /\ List.forallb (fun ev => negb (to_elevenlabs ev)) added = true.
Proof.
  intros Hprefix. unfold VoiceCloning.generate_speech. rewrite Hprefix.
  rewrite andb_false_r.
  unfold VoiceCloning._generate_with_fallback, try_except, bind, remote,
    write_file, subprocess_run, ret.
  repeat (split_cases; cbn [fst snd trace files effect]);
    first [ exists [SpeechCreate "alloy" text]; split; reflexivity
          | eexists [_; _]; split; reflexivity ].
Qed.

(** X21.  A voice cloned without the remote provider, because no client
    is configured or because the remote cloning raised or the sample could
    not be read, gets an id that starts with "fallback_"; the metadata of
    the voice, with the path of the sample, is written under that id; and
    no later text-to-speech call with that id, with or without a client,
    reaches the cloning provider. *)
Theorem cloned_fallback_voice_stays_local
    (client : bool) (audio_file_path : string) (voice_name : option (list Z))
    (w w1 : World) (voice : list Z) :
  (client = false
   \/ files w !! audio_file_path = None
   \/ elevenlabs_clone
        (match voice_name with
         | Some name =>
             if truthy name then name
             else lit "cloned_voice_" ++ lit (basename audio_file_path)
         | None => lit "cloned_voice_" ++ lit (basename audio_file_path)
         end) audio_file_path w = None) ->
  clone_voice_from_sample E client elevenlabs_clone json_dump audio_file_path
    voice_name w
  = (Return voice, w1) ->
  startswith voice (lit "fallback_") = true
  /\ (exists metadata,
         files w1 !! ("/tmp/voice_metadata_" +:+ fsencode E voice +:+ ".json")
         = Some (Bytes (json_dump metadata))
         /\ VoiceSamples.voice_id metadata = voice
         /\ original_file metadata = audio_file_path)
  /\ forall client' text output_path w2,
       exists added,
         trace (snd (VoiceCloning.generate_speech E client' text voice
                       output_path w2))
         = added ++ trace w2
         /\ List.forallb (fun ev => negb (to_elevenlabs ev)) added = true.
Proof.
  intros Hlocal Hrun.
  set (name := match voice_name with
               | Some name =>
                   if truthy name then name
                   else lit "cloned_voice_" ++ lit (basename audio_file_path)
               | None => lit "cloned_voice_" ++ lit (basename audio_file_path)
               end) in *.
  assert (Hfallback :
            _fallback_voice_processing E json_dump audio_file_path name w
            = (Return voice, w1)).
  { unfold clone_voice_from_sample in Hrun. fold name in Hrun.
    destruct client; [|exact Hrun].
    unfold _clone_with_elevenlabs, try_except, bind, os_path_exists, raise
      in Hrun.
    destruct Hlocal as [?|[Hmissing|Hfail]]; [discriminate| |].
    - rewrite Hmissing in Hrun. cbn in Hrun. exact Hrun.
    - destruct (bool_decide (is_Some (files w !! audio_file_path)));
        [rewrite Hfail in Hrun|]; exact Hrun. }
  unfold _fallback_voice_processing, bind, write_file, ret in Hfallback.
  remember (lit "fallback_" ++ name ++ lit "_"
            ++ lit (pretty (py_hash E (lit audio_file_path) mod 10000)))
    as fallback_id eqn:Hid.
  destruct (can_write E _ w); [|discriminate Hfallback].
  injection Hfallback as Hvoice Hworld. subst voice.
  assert (Hprefix : startswith fallback_id (lit "fallback_") = true).
  { rewrite Hid. apply startswith_app. }
  split; [exact Hprefix|]. split.
  - eexists. rewrite <- Hworld. cbn [files]. rewrite lookup_insert_eq.
    split; [reflexivity|]. split; reflexivity.
  - intros client' text output_path w2.
    apply fallback_speech_skips_elevenlabs. exact Hprefix.
Qed.

End VoiceSampleFacts.

Lemma cloned_fallback_voice_stays_local_witness :
  startswith
    (lit "fallback_" ++ (lit "cloned_voice_" ++ lit "me.wav") ++ lit "_"
     ++ lit "47")
    (lit "fallback_") = true.
Proof.
  refine (proj1 (cloned_fallback_voice_stays_local Scenario.muxer_down
                   (fun _ _ _ => None) (fun _ => []) false
                   "/tmp/uploads/me.wav" None Scenario.empty_world _ _
                   (or_introl eq_refl) _)).
  vm_compute. reflexivity.
Defined.

(** ** Drafts *)



Section DraftFacts.

Import OfflineDrafts.

Lemma encodable_lit (s : string) : encodable (lit s) = true.
Proof.
  unfold encodable, lit. apply List.forallb_forall. intros c Hc.
  apply List.in_map_iff in Hc. destruct Hc as (a & <- & _).
  pose proof (N_ascii_bounded a) as Hbound.
  apply negb_true_iff, andb_false_iff. left. apply Z.leb_gt. lia.
Qed.

Lemma encodable_draft_id (second : Z) :
  encodable (lit "draft_" ++ lit (pretty second)) = true.
Proof.
  unfold encodable. rewrite List.forallb_app.
  fold (encodable (lit "draft_")). fold (encodable (lit (pretty second))).
  rewrite !encodable_lit. reflexivity.
Qed.

Variable settings_value : Type.
Variable json_dumps : settings_value -> list Z.
Variable json_loads : list Z -> option settings_value.
Variable empty_object : settings_value.

Lemma save_draft_cases (now0 now1 now2 : Q) (title script voice_id : list Z)
    (settings : settings_value) (db : table) :
  let key := lit "draft_" ++ lit (pretty (int now0)) in
  let run :=
    save_draft settings_value json_dumps now0 now1 now2 title script
      voice_id settings db in
  (List.forallb encodable [title; script; voice_id; json_dumps settings]
   = true
   /\ db !! key = None
   /\ run
      = (inr key,
         <[key := Row title script voice_id (json_dumps settings) now1 now2]>
           db))
  \/ (List.forallb encodable [title; script; voice_id; json_dumps settings]
      = true
      /\ db !! key <> None
      /\ run = (inl (IntegrityError key), db))
  \/ (List.forallb encodable [title; script; voice_id; json_dumps settings]
      = false
      /\ exists text, run = (inl (UnicodeEncodeError text), db)).
Proof.
  intros key run. subst run. unfold save_draft, insert_draft. fold key.
  cbn [List.find List.forallb OfflineDrafts.title OfflineDrafts.script
       OfflineDrafts.voice_id OfflineDrafts.settings].
  assert (Hid : encodable key = true) by apply encodable_draft_id.
  rewrite Hid. cbn [negb].
  destruct (encodable title); cbn [negb andb];
    [|right; right; split; [reflexivity | eexists; reflexivity]].
  destruct (encodable script); cbn [negb andb];
    [|right; right; split; [reflexivity | eexists; reflexivity]].
  destruct (encodable voice_id); cbn [negb andb];
    [|right; right; split; [reflexivity | eexists; reflexivity]].
  destruct (encodable (json_dumps settings)); cbn [negb andb];
    [|right; right; split; [reflexivity | eexists; reflexivity]].
  destruct (db !! key) eqn:Hkey.
  - right. left. split; [reflexivity|]. split; [discriminate | reflexivity].
  - left. split; [reflexivity|]. split; reflexivity.
Qed.

(** X22.  A draft that [save_draft] stored is answered in full by
    [load_draft] under the id returned: its title, script, voice, settings
    and both dates; and the drafts under every other id are answered as
    before the save.  The settings are the ones saved when their JSON text
    reads back to them. *)
Theorem saved_draft_loads_back
    (now0 now1 now2 : Q) (title script voice_id : list Z)
    (settings : settings_value) (db db1 : table) (key : list Z) :
  json_loads (json_dumps settings) = Some settings ->
  truthy (json_dumps settings) = true ->
  save_draft settings_value json_dumps now0 now1 now2 title script voice_id
    settings db
  = (inr key, db1) ->
  load_draft settings_value json_loads empty_object key db1
  = inr (Some (Draft settings_value key title script voice_id settings
                 now1 now2))
  /\ forall other,
       other <> key ->
       load_draft settings_value json_loads empty_object other db1
       = load_draft settings_value json_loads empty_object other db.
Proof.
  intros Hjson Htext Hsave.
  pose proof (save_draft_cases now0 now1 now2 title script voice_id settings
                db) as Hcases.
  cbv zeta in Hcases.
  pose proof (encodable_draft_id (int now0)) as Hid.
  remember (lit "draft_" ++ lit (pretty (int now0))) as key0 eqn:Hkey0.
  destruct Hcases as [(_ & _ & Hrun)|[(_ & _ & Hrun)|(_ & text & Hrun)]];
    rewrite Hrun in Hsave; [|discriminate..].
  injection Hsave as Hkey Hdb. subst db1 key. split.
  - unfold load_draft, table in *. rewrite Hid. cbn [negb].
    rewrite lookup_insert_eq.
    cbn [OfflineDrafts.settings OfflineDrafts.title OfflineDrafts.script
         OfflineDrafts.voice_id created_at updated_at].
    rewrite Htext, Hjson. reflexivity.
  - intros other Hother. unfold load_draft, table in *.
    rewrite lookup_insert_ne by congruence. reflexivity.
Qed.


End DraftFacts.

Lemma saved_draft_loads_back_witness :
  OfflineDrafts.load_draft (list Z)
    (fun t => match t with 34 :: s => Some s | _ => None end) []
    (lit "draft_1700000000")
    {[ lit "draft_1700000000"
       := OfflineDrafts.Row (lit "Intro") (lit "Hello.") (lit "default")
            (34 :: lit "dark") (3400000001 # 2) (3400000001 # 2) ]}
  = inr (Some (OfflineDrafts.Draft (list Z) (lit "draft_1700000000")
                 (lit "Intro") (lit "Hello.") (lit "default") (lit "dark")
                 (3400000001 # 2) (3400000001 # 2))).
Proof.
  refine (proj1 (saved_draft_loads_back (list Z) (fun s => 34 :: s)
                   (fun t => match t with 34 :: s => Some s | _ => None end)
                   [] (3400000001 # 2) (3400000001 # 2) (3400000001 # 2)
                   (lit "Intro") (lit "Hello.") (lit "default") (lit "dark")
                   ∅ _ (lit "draft_1700000000") eq_refl eq_refl _)).
  vm_compute. reflexivity.
Defined.


(** ** The text drawn over an image *)

Section TextOverlayFacts.

Import TextOverlay.

Variable text_width : list Z -> Z.

Lemma wrap_word_groups (words : list (list Z)) :
  forall (groups : list (list (list Z))) (current_line : list (list Z)),
    List.Forall
      (fun g => g <> []
                /\ (List.length g = 1%nat \/ text_width (join g) < 1000))
      groups ->
    (current_line = [] \/ List.length current_line = 1%nat
     \/ text_width (join current_line) < 1000) ->
    exists groups' current_line',
      List.fold_left (wrap_word text_width) words
        (List.map join groups, current_line)
      = (List.map join groups', current_line')
      /\ List.Forall
           (fun g => g <> []
                     /\ (List.length g = 1%nat
                         \/ text_width (join g) < 1000))
           groups'
      /\ (current_line' = [] \/ List.length current_line' = 1%nat
          \/ text_width (join current_line') < 1000)
      /\ List.concat groups' ++ current_line'
         = List.concat groups ++ current_line ++ words.
Proof.
  induction words as [|word words IH]; intros groups current_line Hgroups Hcur.
  - exists groups, current_line. cbn [List.fold_left].
    rewrite List.app_nil_r. auto.
  - cbn [List.fold_left]. unfold wrap_word at 2.
    destruct (Z.ltb_spec (text_width (join (current_line ++ [word]))) 1000)
      as [Hfits|Hwide].
    + destruct (IH groups (current_line ++ [word]) Hgroups
                  (or_intror (or_intror Hfits)))
        as (groups' & current_line' & Hrun & Hall & Hlast & Hwords).
      exists groups', current_line'. rewrite Hrun, Hwords, <- List.app_assoc.
      auto.
    + destruct current_line as [|first rest]; cbn [nonempty].
      * destruct (IH groups [word] Hgroups (or_intror (or_introl eq_refl)))
          as (groups' & current_line' & Hrun & Hall & Hlast & Hwords).
        exists groups', current_line'. rewrite Hrun, Hwords. auto.
      * assert (Hgroups' :
                  List.Forall
                    (fun g => g <> []
                              /\ (List.length g = 1%nat
                                  \/ text_width (join g) < 1000))
                    (groups ++ [first :: rest])).
        { apply List.Forall_app. split; [exact Hgroups|].
          constructor; [|constructor].
          split; [discriminate|].
          destruct Hcur as [Hcur|Hcur]; [discriminate | exact Hcur]. }
        destruct (IH (groups ++ [first :: rest]) [word] Hgroups'
                    (or_intror (or_introl eq_refl)))
          as (groups' & current_line' & Hrun & Hall & Hlast & Hwords).
        exists groups', current_line'.
        rewrite List.map_app in Hrun. cbn [List.map] in Hrun.
        rewrite Hrun, Hwords, List.concat_app. cbn [List.concat].
        rewrite List.app_nil_r, <- !List.app_assoc. auto.
Qed.

(** X24.  The lines into which [add_text_to_image] wraps a text are the
    words of the text in their order, cut into groups and each group
    joined by single spaces; no group is empty, and a group of several
    words is narrower than 1000 in the font in use: only a line that holds
    a single word can be wider. *)
Theorem wrapped_lines_group_the_words (text : list Z) :
  exists groups : list (list (list Z)),
    wrap text_width text = List.map join groups
    /\ List.concat groups = split_whitespace text []
    /\ List.Forall
         (fun g => g <> []
                   /\ (List.length g = 1%nat \/ text_width (join g) < 1000))
         groups.
Proof.
  unfold wrap.
  destruct (wrap_word_groups (split_whitespace text []) [] []
              (List.Forall_nil _) (or_introl eq_refl))
    as (groups & current_line & Hrun & Hall & Hlast & Hwords).
  cbn [List.map List.concat List.app] in Hrun, Hwords. rewrite Hrun.
  destruct current_line as [|first rest]; cbn [nonempty].
  - exists groups. rewrite List.app_nil_r in Hwords. auto.
  - exists (groups ++ [first :: rest]).
    rewrite List.map_app, List.concat_app. cbn [List.map List.concat].
    rewrite List.app_nil_r. split; [reflexivity|]. split; [exact Hwords|].
    apply List.Forall_app. split; [exact Hall|].
    constructor; [|constructor]. split; [discriminate|].
    destruct Hlast as [Hlast|Hlast]; [discriminate | exact Hlast].
Qed.

Lemma in_enumerate_from {A} (l : list A) (i : nat) (a : A) :
  forall start,
    In (i, a) (List.combine (List.seq start (List.length l)) l)
    <-> (start <= i)%nat /\ List.nth_error l (i - start) = Some a.
Proof.
  induction l as [|b l IH]; intros start.
  - cbn. split; [contradiction|]. intros [_ H].
    destruct (i - start)%nat; discriminate.
  - cbn [List.length List.seq List.combine In]. rewrite IH. split.
    + intros [Hhead|[Hle Hnth]].
      * injection Hhead as -> ->. split; [lia|].
        rewrite Nat.sub_diag. reflexivity.
      * split; [lia|].
        replace (i - start)%nat with (S (i - S start)) by lia. exact Hnth.
    + intros [Hle Hnth].
      destruct (i - start)%nat as [|k] eqn:Hk.
      * left. injection Hnth as ->. f_equal. lia.
      * right. split; [lia|].
        replace (i - S start)%nat with k by lia. exact Hnth.
Qed.

Lemma in_enumerate {A} (l : list A) (i : nat) (a : A) :
  In (i, a) (enumerate l) <-> List.nth_error l i = Some a.
Proof.
  unfold enumerate. rewrite in_enumerate_from, Nat.sub_0_r.
  split; [intros [_ H]; exact H | intros H; split; [lia | exact H]].
Qed.

(** X25.  Every wrapped line is drawn exactly once in white, in the order
    of the lines.  The white lines all lie within the 720 rows of the
    frame, each with its 60 rows, exactly when the text wraps into at most
    12 lines. *)
Theorem overlay_fits_up_to_twelve_lines (text : list Z) :
  let calls := add_text_to_image text_width text in
  let n := Z.of_nat (List.length (wrap text_width text)) in
  List.map line (List.filter (fun c => match colour c with
                                       | white => true
                                       | black => false
                                       end) calls)
  = wrap text_width text
  /\ (List.Forall
        (fun c => colour c = white -> 0 <= y c /\ y c + 60 <= 720) calls
      <-> n <= 12).
Proof.
  intros calls n. subst calls n. unfold add_text_to_image.
  set (lines := wrap text_width text).
  set (y_offset := (720 - Z.of_nat (List.length lines) * 60) / 2).
  assert (Hoffset : y_offset = 360 - 30 * Z.of_nat (List.length lines)).
  { unfold y_offset.
    replace (720 - Z.of_nat (List.length lines) * 60)
      with ((360 - 30 * Z.of_nat (List.length lines)) * 2) by lia.
    apply Z.div_mul. discriminate. }
  split.
  - unfold enumerate. generalize 0%nat. clear Hoffset. clearbody y_offset.
    induction lines as [|l lines IH]; intros start; [reflexivity|].
    cbn [List.length List.seq List.combine List.map List.concat List.app
         List.filter colour line].
    f_equal. apply IH.
  - clearbody lines. rewrite List.Forall_forall. split.
    + intros Hall. destruct lines as [|l rest];
        [cbn; lia|].
      specialize (Hall (Text ((1280 - text_width l) / 2)
                          (y_offset + Z.of_nat 0 * 60) l white)).
      cbn [colour y] in Hall.
      assert (0 <= y_offset + Z.of_nat 0 * 60) by
        (apply Hall; [right; left; reflexivity | reflexivity]).
      lia.
    + intros Hn c Hin Hwhite.
      apply List.in_concat in Hin. destruct Hin as (pair & Hpair & Hc).
      apply List.in_map_iff in Hpair.
      destruct Hpair as ([i l] & <- & Hil).
      apply in_enumerate in Hil.
      assert (Hi : (i < List.length lines)%nat).
      { apply List.nth_error_Some. rewrite Hil. discriminate. }
      destruct Hc as [<-|[<-|[]]]; [discriminate Hwhite|].
      cbn [y]. lia.
Qed.

End TextOverlayFacts.

(** ** Looking a job up *)

(** X26.  The status route and the download route look at the same file,
    so a job is reported completed exactly when its video can be
    downloaded.  A script made of white space only is answered by the
    generation route as completed, with a download address; when no video
    of that name existed before, the status route then reports the job as
    still processing and the download route answers 404. *)
Theorem completed_answer_without_a_video
    (E : Env) (client : bool) (data : gmap string (list Z))
    (script : list Z) (w : World) :
  data !! "script"%string = Some script ->
  script <> [] ->
  List.Forall (fun c => isspace c = true) script ->
  files w !! path_join Video.OUTPUT_FOLDER (uuid4 E w +:+ ".mp4") = None ->
  (forall job w',
      fst (VideoJobs.get_job_status job w')
      = Return (VideoJobs.JobCompleted job ("/api/download-video/" +:+ job))
      <-> fst (VideoJobs.download_video job w')
          = Return (VideoJobs.SentFile
                      (path_join Video.OUTPUT_FOLDER (job +:+ ".mp4"))
                      ("dawa_present_video_" +:+ job +:+ ".mp4")))
  /\ exists job w1,
       Video.generate_video E client (Some data) w
       = (Return (Video.Completed job ("/api/download-video/" +:+ job)
                    "Video generated successfully"), w1)
       /\ fst (VideoJobs.get_job_status job w1)
          = Return (VideoJobs.JobProcessing job)
       /\ fst (VideoJobs.download_video job w1)
          = Return (VideoJobs.Refused "Video not found" 404).
Proof.
  intros Hdata Hne Hsp Hfree. split.
  - intros job w'.
    unfold VideoJobs.get_job_status, VideoJobs.download_video, try_except,
      bind, os_path_exists, ret.
    cbn [fst].
    destruct (bool_decide
                (is_Some
                   (files w'
                    !! path_join Video.OUTPUT_FOLDER (job +:+ ".mp4"))));
      cbn [fst]; split; intros H; first [reflexivity | discriminate H].
  - eexists. eexists. split.
    + apply (whitespace_script_is_reported_completed E client data script w);
        assumption.
    + unfold VideoJobs.get_job_status, VideoJobs.download_video, try_except,
        bind, os_path_exists, ret.
      cbn [fst files]. rewrite Hfree.
      rewrite bool_decide_eq_false_2 by (intros [? H]; discriminate H).
      split; reflexivity.
Qed.

Lemma completed_answer_without_a_video_witness :
  exists job w1,
    Video.generate_video Scenario.muxer_down true (Scenario.body " ")
      Scenario.empty_world
    = (Return (Video.Completed job ("/api/download-video/" +:+ job)
                 "Video generated successfully"), w1)
    /\ fst (VideoJobs.get_job_status job w1)
       = Return (VideoJobs.JobProcessing job)
    /\ fst (VideoJobs.download_video job w1)
       = Return (VideoJobs.Refused "Video not found" 404).
Proof.
  apply (completed_answer_without_a_video Scenario.muxer_down true
           {["script"%string := lit " "]} (lit " ") Scenario.empty_world).
  - reflexivity.
  - discriminate.
  - repeat constructor.
  - reflexivity.
Defined.

(** ** The Dzongkha script generated from an English script *)

Lemma matched_app (a b : list Z) :
  Spec.matched (a ++ b) = Spec.matched a + Spec.matched b.
Proof.
  unfold Spec.matched. rewrite List.filter_app, List.length_app. lia.
Qed.

Lemma total_app (a b : list Z) :
  Spec.total (a ++ b) = Spec.total a + Spec.total b.
Proof.
  unfold Spec.total. rewrite List.filter_app, List.length_app. lia.
Qed.

Lemma valid_iff_majority (text : list Z) :
  Dzongkha.is_valid (Dzongkha.validate_dzongkha_text text) = true
  <-> Spec.total text < 2 * Spec.matched text.
Proof.
  unfold Dzongkha.validate_dzongkha_text. cbn [Dzongkha.is_valid].
  rewrite (detect_language_refines text). unfold Spec.detect.
  pose proof (matched_le_total text) as Hle.
  destruct (Z.eqb_spec (Spec.total text) 0) as [Hz|Hnz]; simpl.
  - split; [discriminate | lia].
  - assert (Hpos : 0 < Spec.total text) by lia.
    pose proof (ratio_above_half (Spec.matched text) _ Hpos) as Hr.
    fold (Spec.match_ratio text) in Hr.
    destruct (Qlt_le_dec (1 # 2) (Spec.match_ratio text)) as [Hgt|Hle'];
      simpl.
    + split; [intros _; apply Hr; exact Hgt | reflexivity].
    + split; [discriminate|]. intros H. apply Hr in H.
      exfalso. apply (Qlt_not_le _ _ H). exact Hle'.
Qed.

Section DzongkhaVideoFacts.

Import DzongkhaScripts DzongkhaVideoRoutes.

Variable E : Env.
Variable self : DzongkhaSpeech.service.
Variable amplitude : Z -> Dzongkha.tone_type -> Z -> Z.
Variable vits_waveform : list Z -> World -> option (list Z).

(** X27.  The script generated from an English script is the fixed
    template around it, whose own 153 characters besides white space are
    not Tibetan; it validates as Dzongkha only when the Tibetan characters
    of the English script outnumber all its other characters by more than
    153.  So a request with an English script only, short of that, is
    prepared with the template as its script, marked invalid, and without
    audio: no speech is attempted and nothing is written. *)
Theorem english_only_request_gets_no_audio
    (data : gmap string (list Z)) (english : list Z) (w : World) :
  default [] (data !! "dzongkha_script"%string) = [] ->
  data !! "english_script"%string = Some english ->
  english <> [] ->
  let generated := dzongkha_script (generate_dzongkha_video_script english) in
  (Dzongkha.is_valid (Dzongkha.validate_dzongkha_text generated) = true
   <-> Spec.total english + 153 < 2 * Spec.matched english)
  /\ (2 * Spec.matched english <= Spec.total english + 153 ->
      generate_video_with_dzongkha E self amplitude vits_waveform (Some data) w
      = (Return
           (Prepared
              (VideoData generated english None
                 (default (lit "traditional") (data !! "style"%string))
                 (default (lit "Dzongkha Video") (data !! "title"%string))
                 (Dzongkha.validate_dzongkha_text generated))
              ("dzongkha_video_" +:+ uuid4 E w)),
         w)
      /\ Dzongkha.is_valid (Dzongkha.validate_dzongkha_text generated)
         = false).
Proof.
  intros Hdz Hen Hne generated.
  assert (Hvalid :
            Dzongkha.is_valid (Dzongkha.validate_dzongkha_text generated)
            = true
            <-> Spec.total english + 153 < 2 * Spec.matched english).
  { rewrite valid_iff_majority. subst generated.
    unfold generate_dzongkha_video_script. cbn [dzongkha_script].
    rewrite !matched_app, !total_app.
    replace (Spec.matched template_before) with 0 by (vm_compute; reflexivity).
    replace (Spec.matched template_after) with 0 by (vm_compute; reflexivity).
    replace (Spec.total template_before) with 43 by (vm_compute; reflexivity).
    replace (Spec.total template_after) with 110 by (vm_compute; reflexivity).
    lia. }
  split; [exact Hvalid|].
  intros Hfew.
  assert (Hinvalid :
            Dzongkha.is_valid (Dzongkha.validate_dzongkha_text generated)
            = false).
  { destruct (Dzongkha.is_valid (Dzongkha.validate_dzongkha_text generated));
      [|reflexivity].
    exfalso. pose proof (proj1 Hvalid eq_refl). lia. }
  split; [|exact Hinvalid].
  unfold generate_video_with_dzongkha, try_except, bind, ret.
  rewrite Hdz, Hen. cbn [default from_option]. unfold id.
  rewrite (proj2 (truthy_nonempty english) Hne).
  cbn [truthy negb andb]. fold generated.
  rewrite Hinvalid, andb_false_r. reflexivity.
Qed.

End DzongkhaVideoFacts.

Lemma english_only_request_gets_no_audio_witness :
  Dzongkha.is_valid
    (Dzongkha.validate_dzongkha_text
       (DzongkhaScripts.dzongkha_script
          (DzongkhaScripts.generate_dzongkha_video_script (lit "Hello"))))
  = false.
Proof.
  assert (Hdz :
    default [] (({["english_script"%string := lit "Hello"]}
                   : gmap string (list Z)) !! "dzongkha_script"%string) = [])
    by reflexivity.
  assert (Hen :
    ({["english_script"%string := lit "Hello"]} : gmap string (list Z))
      !! "english_script"%string = Some (lit "Hello")) by reflexivity.
  assert (Hne : lit "Hello" <> []) by discriminate.
  apply (proj2 (english_only_request_gets_no_audio Scenario.muxer_down
                  (DzongkhaSpeech.Service false true
                     (Some DzongkhaSpeech.synthetic) false)
                  (fun _ _ _ => 0) (fun _ _ => None)
                  _ (lit "Hello") Scenario.empty_world Hdz Hen Hne)).
  vm_compute. discriminate.
Defined.
